(** * Olive canopy segmenter: the Otsu pipeline of [otsu_segmentation.py]

    A shallow embedding of [_load_layer_from_output],
    [_reproject_aoi_to_raster], [_prepare_aoi_file], [_rasterize_aoi] and
    [segment_olivos], with the properties of the pipeline proved about it.

    Python floats are IEEE 754 binary64 numbers and are modelled by Rocq's
    primitive floats; Python ints are [Z]; numpy [uint8] arrays are lists of
    rows of [Z]; exceptions are values of [exn] carried by [result].  The
    libraries the module calls (QGIS processing, GDAL/OGR, OpenCV) are not part
    of the repository: what they compute is taken as a [Backend] record, and
    what they do to the file system is written out on a [World]. *)

From Stdlib Require Import ZArith Floats Lia Bool Ascii String Sorted.
From stdpp Require Import gmap strings list pretty.

Local Open Scope Z_scope.

(** ** Exceptions *)

Inductive exn : Type :=
  | RuntimeError (msg : string)
  | ZeroDivisionError
  | IndexError
  | ValueError
  | OverflowError
  | AttributeError.

Inductive result (A : Type) : Type :=
  | Ok (a : A)
  | Raise (e : exn).
Arguments Ok {A} a.
Arguments Raise {A} e.

#[global] Instance result_ret : MRet result := λ A a, Ok a.
#[global] Instance result_bind : MBind result := λ A B k m,
  match m with
  | Ok a => k a
  | Raise e => Raise e
  end.

(** The class name of an exception, as Python reports it. *)
Definition exn_name (e : exn) : string :=
  match e with
  | RuntimeError _ => "RuntimeError"
  | ZeroDivisionError => "ZeroDivisionError"
  | IndexError => "IndexError"
  | ValueError => "ValueError"
  | OverflowError => "OverflowError"
  | AttributeError => "AttributeError"
  end.

Definition fails_with {A : Type} (name : string) (r : result A) : Prop :=
  match r with
  | Ok _ => False
  | Raise e => exn_name e = name
  end.

Definition succeeds {A : Type} (r : result A) : Prop :=
  match r with
  | Ok _ => True
  | Raise _ => False
  end.

(** ** numpy arrays

    A two-dimensional [uint8] array is the list of its rows.  [arr == v]
    is a boolean array of the same shape. *)

Definition ndarray : Type := list (list Z).
Definition boolarray : Type := list (list bool).

Definition row_lengths {A : Type} (a : list (list A)) : list nat := length <$> a.

Definition same_shape {A B : Type} (a : list (list A)) (b : list (list B)) : bool :=
  bool_decide (row_lengths a = row_lengths b).

(** [h] rows of [w] columns. *)
Definition has_shape {A : Type} (h w : nat) (a : list (list A)) : Prop :=
  length a = h ∧ Forall (λ row, length row = w) a.

Definition pixel {A : Type} (a : list (list A)) (row col : nat) : option A :=
  a !! row ≫= (.!! col).

Definition zeros_like (a : ndarray) : ndarray := map (map (λ _, 0)) a.

Definition eq_scalar (a : ndarray) (v : Z) : boolarray := map (map (λ x, x =? v)) a.

Definition gt_scalar (a : ndarray) (v : Z) : boolarray := map (map (λ x, v <? x)) a.

(** [.astype(np.uint8)] on a boolean array. *)
Definition astype_uint8 (m : boolarray) : ndarray :=
  map (map (λ b : bool, if b then 1 else 0)) m.

(** [np.logical_and] on two arrays of one shape (the only way it is reached
    here; broadcasting is not modelled). *)
Definition logical_and (m1 m2 : boolarray) : result boolarray :=
  if same_shape m1 m2 then Ok (zip_with (zip_with andb) m1 m2)
  else Raise ValueError.

(** [a[m]]: the elements of [a] where [m] holds, in row-major order. *)
Fixpoint select_row (row : list Z) (m : list bool) : list Z :=
  match row, m with
  | x :: row', b :: m' => if b then x :: select_row row' m' else select_row row' m'
  | _, _ => []
  end.

Definition getitem_mask (a : ndarray) (m : boolarray) : result (list Z) :=
  if same_shape a m then Ok (concat (zip_with select_row a m))
  else Raise IndexError.

Definition count_true (m : boolarray) : nat :=
  length (filter (λ b : bool, b = true) (concat m)).

(** [a[m] = vals]: the values are laid down, in row-major order, on the
    positions where [m] holds; what is left of [vals] is handed on. *)
Fixpoint scatter_row (row : list Z) (m : list bool) (vals : list Z) : list Z * list Z :=
  match row, m with
  | x :: row', b :: m' =>
      if b then
        match vals with
        | v :: vals' => let '(r, rest) := scatter_row row' m' vals' in (v :: r, rest)
        | [] => let '(r, rest) := scatter_row row' m' [] in (x :: r, rest)
        end
      else let '(r, rest) := scatter_row row' m' vals in (x :: r, rest)
  | _, _ => (row, vals)
  end.

Fixpoint scatter (a : ndarray) (m : boolarray) (vals : list Z) : ndarray :=
  match a, m with
  | row :: a', mrow :: m' =>
      let '(r, rest) := scatter_row row mrow vals in r :: scatter a' m' rest
  | _, _ => a
  end.

Definition setitem_mask (a : ndarray) (m : boolarray) (vals : list Z) : result ndarray :=
  if negb (same_shape a m) then Raise IndexError
  else if negb (bool_decide (length vals = count_true m)) then Raise ValueError
  else Ok (scatter a m vals).

(** [a[m] = v] with a scalar [v]. *)
Definition setitem_mask_scalar (a : ndarray) (m : boolarray) (v : Z) : result ndarray :=
  if same_shape a m
  then Ok (zip_with (zip_with (λ x (b : bool), if b then v else x)) a m)
  else Raise IndexError.

(** ** The masked compositor: lines 141-145 of [segment_olivos] *)

Definition masked_composite (mask_arr otsu_full : ndarray) : result ndarray :=
  let bin_img := zeros_like otsu_full in
  sel ← getitem_mask otsu_full (eq_scalar mask_arr 1) ;
  bin_img ← setitem_mask bin_img (eq_scalar mask_arr 1) sel ;
  let mask_trees := zeros_like bin_img in
  cond ← logical_and (eq_scalar mask_arr 1) (eq_scalar bin_img 0) ;
  setitem_mask_scalar mask_trees cond 255.

(** ** Python numbers

    [float / int] converts the int and raises on a zero divisor;
    [int(float)] truncates toward zero and raises on infinities and NaN.
    The ints converted here are raster dimensions and contour coordinates
    (C ints), far from the range where the conversion itself would fail. *)

Definition float_of_int (z : Z) : float :=
  SF2Prim (binary_normalize prec emax z 0 false).

Definition truediv (a : float) (n : Z) : result float :=
  if n =? 0 then Raise ZeroDivisionError
  else Ok (PrimFloat.div a (float_of_int n)).

Definition py_int (f : float) : result Z :=
  match Prim2SF f with
  | S754_zero _ => Ok 0
  | S754_infinity _ => Raise OverflowError
  | S754_nan => Raise ValueError
  | S754_finite s m e =>
      let v := Z.shiftl (Z.pos m) e in Ok (if s then - v else v)
  end.

(** ** Python strings *)

Definition lower_ascii (c : ascii) : ascii :=
  let n := nat_of_ascii c in
  if ((65 <=? n) && (n <=? 90))%nat then ascii_of_nat (n + 32) else c.

Fixpoint lower (s : string) : string :=
  match s with
  | EmptyString => EmptyString
  | String c s' => String (lower_ascii c) (lower s')
  end.

Definition endswith (s suffix : string) : bool :=
  let n := String.length s in
  let k := String.length suffix in
  ((k <=? n)%nat && String.eqb (substring (n - k) k s) suffix)%bool.

(** [s.split(sep)[0]]: what comes before the first [sep]. *)
Fixpoint split_head (sep : ascii) (s : string) : string :=
  match s with
  | EmptyString => EmptyString
  | String c s' => if Ascii.eqb c sep then EmptyString else String c (split_head sep s')
  end.

(** [enumerate(l, start)]. *)
Fixpoint enumerate {A : Type} (start : Z) (l : list A) : list (Z * A) :=
  match l with
  | [] => []
  | x :: l' => (start, x) :: enumerate (start + 1) l'
  end.

(** ** QGIS layers *)

Record CRS : Type := { authid : string; toWkt : string }.

#[global] Instance CRS_eq_dec : EqDecision CRS.
Proof. solve_decision. Defined.

Definition PointXY : Type := (float * float)%type.

(** A feature: a polygon (its rings) and its attribute values. *)
Record Feature : Type := {
  geometry : list (list PointXY);
  attributes : list Z
}.

Record Rectangle : Type := {
  xMinimum : float;
  xMaximum : float;
  yMinimum : float;
  yMaximum : float
}.

Record VectorLayer : Type := {
  v_crs : CRS;
  dataSourceUri : string;
  fields : list string;
  features : list Feature
}.

Record RasterLayer : Type := {
  r_crs : CRS;
  extent : Rectangle;
  width : Z;
  height : Z;
  source : string
}.

(** What [result.get("OUTPUT")] of a processing run can be. *)
Inductive ProcOutput : Type :=
  | OutLayer (layer : VectorLayer)
  | OutStr (path : string)
  | OutOther.

(** ** The file system

    A path holds a vector data set (what OGR and the QGIS "ogr" provider read)
    or a raster (what [cv2.imread] decodes to grayscale).  [next_tmpdir] is the
    directory [tempfile.mkdtemp()] creates next: the program has no say in
    it. *)

Inductive file : Type :=
  | VectorFile (file_crs : CRS) (feats : list Feature)
  | RasterFile (gray : ndarray).

Record World : Type := {
  files : gmap string file;
  next_tmpdir : string
}.

Definition mkdtemp (σ : World) : string := next_tmpdir σ.

Definition path_exists (σ : World) (path : string) : bool :=
  bool_decide (is_Some (files σ !! path)).

Definition write_file (σ : World) (path : string) (f : file) : World :=
  {| files := <[path := f]> (files σ); next_tmpdir := next_tmpdir σ |}.

(** [QgsVectorLayer(path, name, "ogr")]: valid when [path] is a vector file. *)
Definition QgsVectorLayer_ogr (σ : World) (path : string) : option VectorLayer :=
  match files σ !! path with
  | Some (VectorFile c fs) =>
      Some {| v_crs := c; dataSourceUri := path; fields := []; features := fs |}
  | _ => None
  end.

(** [ogr.Open(path).GetLayer()]; [None] when OGR cannot open the path. *)
Definition ogr_Open (σ : World) (path : string) : option (list Feature) :=
  match files σ !! path with
  | Some (VectorFile _ fs) => Some fs
  | _ => None
  end.

(** [cv2.imread(path, cv2.IMREAD_GRAYSCALE)]. *)
Definition imread_grayscale (σ : World) (path : string) : option ndarray :=
  match files σ !! path with
  | Some (RasterFile gray) => Some gray
  | _ => None
  end.

(** ** GDAL and OpenCV

    [gt] is a GDAL geotransform.  A contour is the list of its pixel vertices
    [(col, row)], the rows of [cnt[:, 0, :]]. *)

Record GeoTransform : Type := {
  gt0 : float; gt1 : float; gt2 : float; gt3 : float; gt4 : float; gt5 : float
}.

Definition Contour : Type := list (Z * Z).

(** What the libraries compute.  GDAL is used the way the module expects it,
    reporting failures by [None] and error codes (no [UseExceptions]). *)
Record Backend : Type := {
  (** [processing.run("native:reprojectlayer", ...).get("OUTPUT")] *)
  reprojectlayer : VectorLayer → string → ProcOutput;
  (** whether [processing.run("native:savefeatures", ...)] writes its output *)
  savefeatures_ok : VectorLayer → bool;
  (** the rasterizer's pixel rule: is pixel [(row, col)] burnt for a feature *)
  covers : GeoTransform → Feature → nat → nat → bool;
  (** the error code of [gdal.RasterizeLayer] *)
  rasterize_error : GeoTransform → ndarray → list Feature → Z;
  (** the level [cv2.threshold] picks under [THRESH_OTSU] *)
  otsu_level : ndarray → Z;
  (** [cv2.findContours(img, RETR_EXTERNAL, CHAIN_APPROX_SIMPLE)] *)
  findContours : ndarray → list Contour;
  (** [cv2.contourArea] *)
  contourArea : Contour → float
}.

(** [processing.run("native:savefeatures", {INPUT, OUTPUT})]: the features are
    written at the requested path, which is returned as ["OUTPUT"]. *)
Definition savefeatures (B : Backend) (σ : World) (aoi : VectorLayer) (path : string)
  : option string * World :=
  if savefeatures_ok B aoi
  then (Some path, write_file σ path (VectorFile (v_crs aoi) (features aoi)))
  else (None, σ).

(** [GetDriverByName("MEM").Create("", w, h, 1, GDT_Byte)]: a zero-filled band
    of [h] rows and [w] columns, or [None] for sizes below 1. *)
Definition mem_Create (w h : Z) : option ndarray :=
  if ((w <? 1) || (h <? 1))%bool then None
  else Some (replicate (Z.to_nat h) (replicate (Z.to_nat w) 0)).

(** [gdal.RasterizeLayer(ds, [1], layer, burn_values=[1])] on band 1. *)
Definition burn (B : Backend) (gt : GeoTransform) (layer : list Feature) (band : ndarray)
  : ndarray :=
  imap (λ row, imap (λ col x,
    if existsb (λ f, covers B gt f row col) layer then 1 else x)) band.

(** [cv2.threshold(img, _, maxval, THRESH_BINARY)] at level [t]. *)
Definition threshold_binary (img : ndarray) (t maxval : Z) : ndarray :=
  map (map (λ x, if t <? x then maxval else 0)) img.

(** ** The module's functions *)

Section Pipeline.
Variable B : Backend.

Definition _load_layer_from_output (σ : World) (output : ProcOutput) : result VectorLayer :=
  match output with
  | OutLayer layer => Ok layer
  | OutStr path =>
      match QgsVectorLayer_ogr σ path with
      | Some layer => Ok layer
      | None => Raise (RuntimeError ("Could not load layer from: " ++ path))
      end
  | OutOther => Raise (RuntimeError "Unexpected type when loading reprojected layer")
  end.

Definition _reproject_aoi_to_raster (σ : World) (aoi : VectorLayer) (ras : RasterLayer)
  : result VectorLayer :=
  if decide (v_crs aoi = r_crs ras) then Ok aoi
  else
    let out := reprojectlayer B aoi (authid (r_crs ras)) in
    _load_layer_from_output σ out.

Definition _prepare_aoi_file (σ : World) (aoi : VectorLayer) : result (string * World) :=
  let source := dataSourceUri aoi in
  if endswith (lower source) ".shp" then Ok (source, σ)
  else
    let tmp_dir := mkdtemp σ in
    let shp_path := (tmp_dir ++ "/aoi_temp.shp")%string in
    let '(shp_result, σ) := savefeatures B σ aoi shp_path in
    match shp_result with
    | Some p =>
        if (negb (String.eqb p "") && path_exists σ p)%bool then Ok (p, σ)
        else Raise (RuntimeError "Failed to write temporary AOI shapefile")
    | None => Raise (RuntimeError "Failed to write temporary AOI shapefile")
    end.

Definition _rasterize_aoi (σ : World) (layer_aoi : VectorLayer) (layer_ras : RasterLayer)
  : result (ndarray * Rectangle * float * float * Z * Z * World) :=
  aoi_proj ← _reproject_aoi_to_raster σ layer_aoi layer_ras;
  '(aoi_file, σ) ← _prepare_aoi_file σ aoi_proj;
  let extent := extent layer_ras in
  let w := width layer_ras in
  let h := height layer_ras in
  g1 ← truediv (xMaximum extent - xMinimum extent) w;
  g5 ← truediv (- (yMaximum extent - yMinimum extent)) h;
  let gt := {| gt0 := xMinimum extent; gt1 := g1; gt2 := 0;
               gt3 := yMaximum extent; gt4 := 0; gt5 := g5 |} in
  dst_ds ← match mem_Create w h with
           | Some band => Ok band
           | None => Raise AttributeError
           end;
  ogr_layer ← match ogr_Open σ aoi_file with
              | Some layer => Ok layer
              | None => Raise (RuntimeError "Failed to open AOI layer with OGR")
              end;
  let err := rasterize_error B gt dst_ds ogr_layer in
  if negb (err =? 0) then Raise (RuntimeError "GDAL RasterizeLayer error")
  else
    let mask_arr := burn B gt ogr_layer dst_ds in
    let px_x := gt1 gt in
    let px_y := abs (gt5 gt) in
    let mask_arr := astype_uint8 (gt_scalar mask_arr 0) in
    Ok (mask_arr, extent, px_x, px_y, w, h, σ).

(** The body of the loop over the contours, for a contour that is kept. *)
Definition build_feature (extent : Rectangle) (px_x px_y : float) (i : Z) (cnt : Contour)
  : result Feature :=
  area_px ← py_int (contourArea B cnt);
  let pts := map (λ pt : Z * Z,
    let px := pt.1 in
    let py := pt.2 in
    let x_geo := (xMinimum extent + (float_of_int px + 0.5) * px_x)%float in
    let y_geo := (yMaximum extent - (float_of_int py + 0.5) * px_y)%float in
    (x_geo, y_geo)) cnt in
  Ok {| geometry := [pts]; attributes := [i; area_px] |}.

(** The loop: [prov] is the provider's feature list, grown by [addFeature]. *)
Fixpoint add_features (extent : Rectangle) (px_x px_y : float)
    (prov : list Feature) (contornos : list (Z * Contour)) : result (list Feature) :=
  match contornos with
  | [] => Ok prov
  | (i, cnt) :: rest =>
      if (length cnt <? 3)%nat then add_features extent px_x px_y prov rest
      else
        feat ← build_feature extent px_x px_y i cnt;
        add_features extent px_x px_y (prov ++ [feat]) rest
  end.

Definition segment_olivos (σ : World) (layer_ras : RasterLayer) (layer_aoi : VectorLayer)
  : result (VectorLayer * World) :=
  '(mask_arr, extent, px_x, px_y, w, h, σ) ← _rasterize_aoi σ layer_aoi layer_ras;
  let raster_path := split_head "?" (split_head "|" (source layer_ras)) in
  img_gray ← match imread_grayscale σ raster_path with
             | Some img => Ok img
             | None => Raise (RuntimeError "OpenCV could not read the raster (grayscale)")
             end;
  let otsu_full := threshold_binary img_gray (otsu_level B img_gray) 255 in
  mask_trees ← masked_composite mask_arr otsu_full;
  let contornos := findContours B mask_trees in
  let vlayer := {| v_crs := r_crs layer_ras;
                   dataSourceUri := ("Polygon?crs=" ++ authid (r_crs layer_ras))%string;
                   fields := ["ID"; "Area_px"]%string;
                   features := [] |} in
  feats ← add_features extent px_x px_y (features vlayer) (enumerate 1 contornos);
  Ok ({| v_crs := v_crs vlayer; dataSourceUri := dataSourceUri vlayer;
         fields := fields vlayer; features := feats |}, σ).

End Pipeline.

(** ** Reading the results *)

(** What the compositor leaves at a pixel with mask value [m] and thresholded
    value [t]. *)
Definition composite_pixel (m t : Z) : Z :=
  if ((m =? 1) && (t =? 0))%bool then 255 else 0.

Definition all_zero (a : ndarray) : Prop :=
  Forall (Forall (λ x, x = 0)) a.

(** The ID and the vertices of an emitted polygon. *)
Definition feature_id (f : Feature) : option Z := attributes f !! 0%nat.

(** The cell-centre transform as the design documents it, for a raster of
    [w] by [h] pixels over [extent]: px_x = (x_max − x_min)/W and
    px_y = (y_max − y_min)/H.  The loop itself computes [pixel_to_geo] below
    with the pixel sizes [_rasterize_aoi] returns. *)
Definition forward_transform (extent : Rectangle) (w h : Z) (pt : Z * Z) : PointXY :=
  let px_x := ((xMaximum extent - xMinimum extent) / float_of_int w)%float in
  let px_y := ((yMaximum extent - yMinimum extent) / float_of_int h)%float in
  ((xMinimum extent + (float_of_int pt.1 + 0.5) * px_x)%float,
   (yMaximum extent - (float_of_int pt.2 + 0.5) * px_y)%float).

(** The result of a run, without the file system it leaves behind. *)
Definition outcome {A : Type} (r : result (A * World)) : result A :=
  match r with
  | Ok (a, _) => Ok a
  | Raise e => Raise e
  end.

(** ** A small instance

    A 5 by 5 raster over a 5 m square, bright (200) but for a dark (10) 2 by 2
    block and one dark pixel in the bottom row, with the AOI in memory.  The
    backend burns a feature over the pixels whose centre falls in the
    bounding box of its outer ring, thresholds at a fixed level, computes
    areas by the shoelace formula and knows the contours of this one
    image. *)

Definition demo_crs : CRS := {| authid := "EPSG:32719"; toWkt := "PROJCS[WGS 84 / UTM zone 19S]" |}.

Definition demo_extent : Rectangle :=
  {| xMinimum := 500000; xMaximum := 500005; yMinimum := 6000000; yMaximum := 6000005 |}.

Definition demo_ras : RasterLayer :=
  {| r_crs := demo_crs; extent := demo_extent; width := 5; height := 5;
     source := "/data/ortho.tif|option:NUM_THREADS=1" |}.

Definition demo_gray : ndarray :=
  [ [200; 200; 200; 200; 200];
    [200; 200;  10;  10; 200];
    [200; 200;  10;  10; 200];
    [200; 200; 200; 200; 200];
    [ 10; 200; 200; 200; 200] ].

Definition demo_trees : ndarray :=
  [ [0; 0;   0;   0; 0];
    [0; 0; 255; 255; 0];
    [0; 0; 255; 255; 0];
    [0; 0;   0;   0; 0];
    [255; 0; 0;   0; 0] ].

Definition square (x0 y0 x1 y1 : float) : Feature :=
  {| geometry := [[(x0, y0); (x1, y0); (x1, y1); (x0, y1)]]; attributes := [] |}.

Definition demo_aoi : VectorLayer :=
  {| v_crs := demo_crs; dataSourceUri := "Polygon?crs=EPSG:32719&uid={3f1c}";
     fields := []; features := [square 500000 6000000 500005 6000005] |}.

(** An AOI layer without any feature. *)
Definition empty_aoi : VectorLayer :=
  {| v_crs := demo_crs; dataSourceUri := "Polygon?crs=EPSG:32719&uid={77aa}";
     fields := []; features := [] |}.

Definition demo_world (tmp : string) : World :=
  {| files := {[ "/data/ortho.tif"%string := RasterFile demo_gray ]}; next_tmpdir := tmp |}.

Definition in_bbox (ring : list PointXY) (x y : float) : bool :=
  (existsb (λ p : PointXY, (p.1 <=? x)%float) ring && existsb (λ p : PointXY, (x <=? p.1)%float) ring
   && existsb (λ p : PointXY, (p.2 <=? y)%float) ring && existsb (λ p : PointXY, (y <=? p.2)%float) ring)%bool.

Definition demo_covers (gt : GeoTransform) (f : Feature) (row col : nat) : bool :=
  let x := (gt0 gt + (float_of_int (Z.of_nat col) + 0.5) * gt1 gt)%float in
  let y := (gt3 gt + (float_of_int (Z.of_nat row) + 0.5) * gt5 gt)%float in
  match geometry f with
  | ring :: _ => in_bbox ring x y
  | [] => false
  end.

Fixpoint shoelace (first prev : Z * Z) (pts : list (Z * Z)) : Z :=
  match pts with
  | [] => prev.1 * first.2 - first.1 * prev.2
  | p :: pts' => prev.1 * p.2 - p.1 * prev.2 + shoelace first p pts'
  end.

Definition demo_contourArea (cnt : Contour) : float :=
  match cnt with
  | [] => 0%float
  | p :: pts => (float_of_int (Z.abs (shoelace p p pts)) * 0.5)%float
  end.

Definition is_blank (img : ndarray) : bool :=
  forallb (forallb (λ x, x =? 0)) img.

Definition demo_findContours (img : ndarray) : list Contour :=
  if is_blank img then []
  else [ [(0, 4)]; [(2, 1); (2, 2); (3, 2); (3, 1)] ].

Definition demo_backend : Backend :=
  {| reprojectlayer := λ layer _, OutLayer layer;
     savefeatures_ok := λ _, true;
     covers := demo_covers;
     rasterize_error := λ _ _ _, 0;
     otsu_level := λ _, 105;
     findContours := demo_findContours;
     contourArea := demo_contourArea |}.

(** The same raster with its x bounds swapped, and with no columns. *)
Definition flipped_ras : RasterLayer :=
  {| r_crs := demo_crs;
     extent := {| xMinimum := 500005; xMaximum := 500000;
                  yMinimum := 6000000; yMaximum := 6000005 |};
     width := 5; height := 5; source := source demo_ras |}.

Definition empty_ras : RasterLayer :=
  {| r_crs := demo_crs; extent := demo_extent; width := 0; height := 5;
     source := source demo_ras |}.

(** The geotransform [_rasterize_aoi] builds for a raster with columns and
    rows. *)
Definition raster_gt (ras : RasterLayer) : GeoTransform :=
  {| gt0 := xMinimum (extent ras);
     gt1 := (xMaximum (extent ras) - xMinimum (extent ras)) / float_of_int (width ras);
     gt2 := 0;
     gt3 := yMaximum (extent ras);
     gt4 := 0;
     gt5 := - (yMaximum (extent ras) - yMinimum (extent ras)) / float_of_int (height ras) |}.

(** [_rasterize_aoi] once the AOI is reprojected and on disk. *)
Definition rasterize_prepared (B : Backend) (σ : World) (aoi_file : string) (ras : RasterLayer)
  : result (ndarray * Rectangle * float * float * Z * Z * World) :=
  if width ras =? 0 then Raise ZeroDivisionError
  else if height ras =? 0 then Raise ZeroDivisionError
  else match mem_Create (width ras) (height ras) with
       | None => Raise AttributeError
       | Some band =>
           match ogr_Open σ aoi_file with
           | None => Raise (RuntimeError "Failed to open AOI layer with OGR")
           | Some layer =>
               if rasterize_error B (raster_gt ras) band layer =? 0
               then Ok (astype_uint8 (gt_scalar (burn B (raster_gt ras) layer band) 0),
                        extent ras, gt1 (raster_gt ras), abs (gt5 (raster_gt ras)),
                        width ras, height ras, σ)
               else Raise (RuntimeError "GDAL RasterizeLayer error")
           end
       end.

(** [segment_olivos] in two halves: up to the compositor's image, and from
    the contour tracer on. *)
Definition raster_path (ras : RasterLayer) : string :=
  split_head "?" (split_head "|" (source ras)).

Definition segment_mask (B : Backend) (σ : World) (layer_ras : RasterLayer)
    (layer_aoi : VectorLayer) : result (ndarray * Rectangle * float * float * World) :=
  '(mask_arr, extent, px_x, px_y, w, h, σ) ← _rasterize_aoi B σ layer_aoi layer_ras;
  img_gray ← match imread_grayscale σ (raster_path layer_ras) with
             | Some img => Ok img
             | None => Raise (RuntimeError "OpenCV could not read the raster (grayscale)")
             end;
  mask_trees ← masked_composite mask_arr (threshold_binary img_gray (otsu_level B img_gray) 255);
  Ok (mask_trees, extent, px_x, px_y, σ).

Definition build_layer (B : Backend) (layer_ras : RasterLayer) (extent : Rectangle)
    (px_x px_y : float) (mask_trees : ndarray) : result VectorLayer :=
  feats ← add_features B extent px_x px_y [] (enumerate 1 (findContours B mask_trees));
  Ok {| v_crs := r_crs layer_ras;
        dataSourceUri := ("Polygon?crs=" ++ authid (r_crs layer_ras))%string;
        fields := ["ID"; "Area_px"]%string;
        features := feats |}.

(** The contours the polygon builder keeps. *)
Definition kept {A : Type} (contornos : list (A * Contour)) : list (A * Contour) :=
  filter (λ ic, (3 ≤ length ic.2)%nat) contornos.

(** The vertices the loop computes for a contour. *)
Definition pixel_to_geo (extent : Rectangle) (px_x px_y : float) (pt : Z * Z) : PointXY :=
  ((xMinimum extent + (float_of_int pt.1 + 0.5) * px_x)%float,
   (yMaximum extent - (float_of_int pt.2 + 0.5) * px_y)%float).

(** The file system after a run on [demo_world tmp] with the AOI [aoi]. *)
Definition demo_world_after (tmp : string) (aoi : VectorLayer) : World :=
  write_file (demo_world tmp) (tmp ++ "/aoi_temp.shp") (VectorFile (v_crs aoi) (features aoi)).

(** The temporary shapefile of a run is new: [mkdtemp] has just created its
    directory. *)
Definition fresh_tmp (σ : World) : Prop :=
  files σ !! (mkdtemp σ ++ "/aoi_temp.shp")%string = None.

(** ** More readings of the module *)

(** A backend whose reprojection is replaced. *)
Definition with_reprojectlayer (B : Backend) (f : VectorLayer → string → ProcOutput)
  : Backend :=
  {| reprojectlayer := f;
     savefeatures_ok := savefeatures_ok B;
     covers := covers B;
     rasterize_error := rasterize_error B;
     otsu_level := otsu_level B;
     findContours := findContours B;
     contourArea := contourArea B |}.

(** Whether a character occurs in a string. *)
Fixpoint contains (c : ascii) (s : string) : bool :=
  match s with
  | EmptyString => false
  | String c' s' => (Ascii.eqb c' c || contains c s')%bool
  end.


(** The same AOI as [demo_aoi], read from a shapefile written in capitals. *)
Definition shp_aoi : VectorLayer :=
  {| v_crs := demo_crs; dataSourceUri := "/data/PARCELA.SHP";
     fields := []; features := features demo_aoi |}.

(** An AOI in another CRS. *)
Definition wgs84_aoi : VectorLayer :=
  {| v_crs := {| authid := "EPSG:4326"; toWkt := "GEOGCS[WGS 84]" |};
     dataSourceUri := "Polygon?crs=EPSG:4326&uid={9c02}";
     fields := []; features := [square (-71) (-36) (-70) (-35)] |}.

(** * The dialog and the point picker

    [segmentador_olivos_dialog.py] and [pixel_picker_tool.py].  The widgets of
    the dialog are fields of [Dialog]; a slot is a function on it.  The
    project is the list of its map layers, in the order [mapLayers()] gives
    them. *)

Inductive GeometryType : Type :=
  | PointGeometry | LineGeometry | PolygonGeometry | UnknownGeometry | NullGeometry.

#[global] Instance GeometryType_eq_dec : EqDecision GeometryType.
Proof. solve_decision. Defined.

(** A layer of the project, with what the dialog asks of it: [name()],
    [source()] (a raster's is a field of [RasterLayer]) and, for a vector
    layer, [geometryType()]. *)
Inductive MapLayer : Type :=
  | VectorMapLayer (name source : string) (geometryType : GeometryType) (layer : VectorLayer)
  | RasterMapLayer (name : string) (layer : RasterLayer)
  | OtherMapLayer (name : string).

(** A combo box: its items, [(text, data)], and the current index.  On an
    empty box [currentData()] is [None]. *)
Record ComboBox : Type := {
  items : list (string * MapLayer);
  currentIndex : nat
}.

Definition currentData (c : ComboBox) : option MapLayer :=
  snd <$> items c !! currentIndex c.

Definition count (c : ComboBox) : nat := length (items c).

(** [clear()], then [addItem] on the emptied box: the first item added
    becomes the current one. *)
Definition clear : ComboBox := {| items := []; currentIndex := 0 |}.

Definition addItem (c : ComboBox) (text : string) (data : MapLayer) : ComboBox :=
  {| items := items c ++ [(text, data)]; currentIndex := currentIndex c |}.

Inductive MessageBox : Type :=
  | Warning (title text : string)
  | Critical (title : string) (exc : exn).

(** A sample: where it was taken and its [r, g, b]. *)
Definition Sample : Type := (float * float * list Z)%type.

(** A colour image as [cv2.imread(path, IMREAD_COLOR)] returns it: rows of
    [(b, g, r)] pixels. *)
Definition ColorImage : Type := list (list (Z * Z * Z)).

Record Dialog : Type := {
  comboAOI : ComboBox;
  comboRaster : ComboBox;
  btnIniciarMuestras : bool;
  btnTerminarMuestras : bool;
  labelEstado : string;
  progressBar : Z;
  muestras : list Sample;
  (** the point picker's rubber band, when there is a picker *)
  pixelTool : option (list PointXY);
  (** whether the picker is the canvas's map tool *)
  canvasTool : bool;
  (** the message boxes shown, and the delays of the pending [accept] *)
  shown : list MessageBox;
  timers : list Z
}.

Definition set_combos (aoi ras : ComboBox) (d : Dialog) : Dialog :=
  {| comboAOI := aoi; comboRaster := ras;
     btnIniciarMuestras := btnIniciarMuestras d; btnTerminarMuestras := btnTerminarMuestras d;
     labelEstado := labelEstado d; progressBar := progressBar d; muestras := muestras d;
     pixelTool := pixelTool d; canvasTool := canvasTool d; shown := shown d;
     timers := timers d |}.

Definition set_buttons (iniciar terminar : bool) (d : Dialog) : Dialog :=
  {| comboAOI := comboAOI d; comboRaster := comboRaster d;
     btnIniciarMuestras := iniciar; btnTerminarMuestras := terminar;
     labelEstado := labelEstado d; progressBar := progressBar d; muestras := muestras d;
     pixelTool := pixelTool d; canvasTool := canvasTool d; shown := shown d;
     timers := timers d |}.

Definition set_status (text : string) (progress : Z) (d : Dialog) : Dialog :=
  {| comboAOI := comboAOI d; comboRaster := comboRaster d;
     btnIniciarMuestras := btnIniciarMuestras d; btnTerminarMuestras := btnTerminarMuestras d;
     labelEstado := text; progressBar := progress; muestras := muestras d;
     pixelTool := pixelTool d; canvasTool := canvasTool d; shown := shown d;
     timers := timers d |}.

Definition set_muestras (samples : list Sample) (d : Dialog) : Dialog :=
  {| comboAOI := comboAOI d; comboRaster := comboRaster d;
     btnIniciarMuestras := btnIniciarMuestras d; btnTerminarMuestras := btnTerminarMuestras d;
     labelEstado := labelEstado d; progressBar := progressBar d; muestras := samples;
     pixelTool := pixelTool d; canvasTool := canvasTool d; shown := shown d;
     timers := timers d |}.

Definition set_tool (tool : option (list PointXY)) (on_canvas : bool) (d : Dialog) : Dialog :=
  {| comboAOI := comboAOI d; comboRaster := comboRaster d;
     btnIniciarMuestras := btnIniciarMuestras d; btnTerminarMuestras := btnTerminarMuestras d;
     labelEstado := labelEstado d; progressBar := progressBar d; muestras := muestras d;
     pixelTool := tool; canvasTool := on_canvas; shown := shown d;
     timers := timers d |}.

Definition show_message (m : MessageBox) (d : Dialog) : Dialog :=
  {| comboAOI := comboAOI d; comboRaster := comboRaster d;
     btnIniciarMuestras := btnIniciarMuestras d; btnTerminarMuestras := btnTerminarMuestras d;
     labelEstado := labelEstado d; progressBar := progressBar d; muestras := muestras d;
     pixelTool := pixelTool d; canvasTool := canvasTool d; shown := shown d ++ [m];
     timers := timers d |}.

Definition singleShot (msec : Z) (d : Dialog) : Dialog :=
  {| comboAOI := comboAOI d; comboRaster := comboRaster d;
     btnIniciarMuestras := btnIniciarMuestras d; btnTerminarMuestras := btnTerminarMuestras d;
     labelEstado := labelEstado d; progressBar := progressBar d; muestras := muestras d;
     pixelTool := pixelTool d; canvasTool := canvasTool d; shown := shown d;
     timers := timers d ++ [msec] |}.

Definition _CLOSE_DELAY_MS : Z := 2000.

(** Which layers the combo boxes offer. *)
Definition offered_aoi (lyr : MapLayer) : bool :=
  match lyr with
  | VectorMapLayer _ source geometryType _ =>
      (bool_decide (geometryType = PolygonGeometry) && endswith (lower source) ".shp")%bool
  | _ => false
  end.

Definition offered_raster (lyr : MapLayer) : bool :=
  match lyr with
  | RasterMapLayer _ layer =>
      (endswith (lower (source layer)) ".tif" || endswith (lower (source layer)) ".tiff")%bool
  | _ => false
  end.

Definition layer_name (lyr : MapLayer) : string :=
  match lyr with
  | VectorMapLayer name _ _ _ => name
  | RasterMapLayer name _ => name
  | OtherMapLayer name => name
  end.

(** The loop of [_fill_combos] over the layers of the project. *)
Fixpoint fill_loop (layers : list MapLayer) (aoi ras : ComboBox) : ComboBox * ComboBox :=
  match layers with
  | [] => (aoi, ras)
  | lyr :: rest =>
      match lyr with
      | VectorMapLayer name source geometryType _ =>
          if (bool_decide (geometryType = PolygonGeometry)
              && endswith (lower source) ".shp")%bool
          then fill_loop rest (addItem aoi name lyr) ras
          else fill_loop rest aoi ras
      | RasterMapLayer name layer =>
          if (endswith (lower (source layer)) ".tif"
              || endswith (lower (source layer)) ".tiff")%bool
          then fill_loop rest aoi (addItem ras name lyr)
          else fill_loop rest aoi ras
      | OtherMapLayer _ => fill_loop rest aoi ras
      end
  end.

(** The slot connected to [comboRaster.currentIndexChanged], which the
    refills trigger, is [_toggle_sample_button]; every caller of
    [_fill_combos] runs it once more afterwards. *)
Definition _fill_combos (project : list MapLayer) (d : Dialog) : Dialog :=
  let '(aoi, ras) := fill_loop project clear clear in
  set_combos aoi ras d.

Definition _toggle_sample_button (d : Dialog) : Dialog :=
  set_buttons (0 <? count (comboRaster d))%nat (btnTerminarMuestras d) d.

Definition _on_layers_changed (project : list MapLayer) (d : Dialog) : Dialog :=
  _toggle_sample_button (_fill_combos project d).

Definition showEvent (project : list MapLayer) (d : Dialog) : Dialog :=
  _toggle_sample_button (_fill_combos project d).

(** [SegmentadorOlivosDialog(None)] on a project. *)
Definition new_dialog (project : list MapLayer) : Dialog :=
  let d := {| comboAOI := clear; comboRaster := clear;
              btnIniciarMuestras := true; btnTerminarMuestras := true;
              labelEstado := ""; progressBar := 0; muestras := [];
              pixelTool := None; canvasTool := false; shown := []; timers := [] |} in
  let d := _toggle_sample_button (_fill_combos project d) in
  let d := set_status "Select AOI (.shp) and raster (.tif/.tiff)" 0 d in
  set_buttons (btnIniciarMuestras d) false d.

(** [removeMapLayer]: the project emits [layerWillBeRemoved], to which
    [_on_layers_changed] is connected, and then drops the layer. *)
Definition removeMapLayer (i : nat) (project : list MapLayer) (d : Dialog)
  : list MapLayer * Dialog :=
  (delete i project, _on_layers_changed project d).

Definition _start_sampling (d : Dialog) : Dialog :=
  let d := set_tool (Some []) true d in
  let d := set_buttons false true d in
  let d := set_muestras [] d in
  set_status "Samples collected: 0" (progressBar d) d.

Definition resetRubberBand (d : Dialog) : Dialog :=
  match pixelTool d with
  | Some _ => set_tool (Some []) (canvasTool d) d
  | None => d
  end.

Definition _stop_sampling (d : Dialog) : Dialog :=
  let d := match pixelTool d with
           | Some _ => resetRubberBand (set_tool (pixelTool d) false d)
           | None => d
           end in
  let d := set_buttons (btnIniciarMuestras d) false d in
  let d := _toggle_sample_button d in
  set_status ("SAMPLING COMPLETED. Total samples: " ++ pretty (length (muestras d)))
    (progressBar d) d.

(** What the dialog sees of the canvas and of OpenCV. *)
Record Desktop : Type := {
  destinationCrs : CRS;
  (** [QgsCoordinateTransform(src, dst, project).transform(x, y)] *)
  transform : CRS → CRS → float → float → float * float;
  (** [cv2.imread(path, cv2.IMREAD_COLOR)] *)
  imread_color : string → option ColorImage
}.

(** [float / float], which raises on a zero divisor of either sign. *)
Definition truediv_float (a b : float) : result float :=
  if (b =? 0)%float then Raise ZeroDivisionError else Ok (a / b)%float.

Definition rect_width (r : Rectangle) : float := (xMaximum r - xMinimum r)%float.
Definition rect_height (r : Rectangle) : float := (yMaximum r - yMinimum r)%float.

(** [img.shape[0]] and [img.shape[1]]. *)
Definition shape0 (img : ColorImage) : Z := Z.of_nat (length img).
Definition shape1 (img : ColorImage) : Z :=
  match img with
  | row :: _ => Z.of_nat (length row)
  | [] => 0
  end.

Definition sample_path (layer_ras : RasterLayer) : string :=
  split_head "|" (source layer_ras).

Definition _handle_pixel_click (G : Desktop) (d : Dialog) (x_geo y_geo : float)
  : result Dialog :=
  match currentData (comboRaster d) with
  | Some (RasterMapLayer _ layer_ras) =>
      let dst_crs := r_crs layer_ras in
      let src_crs := destinationCrs G in
      let '(x_geo, y_geo) :=
        if decide (src_crs ≠ dst_crs) then transform G src_crs dst_crs x_geo y_geo
        else (x_geo, y_geo) in
      match imread_color G (sample_path layer_ras) with
      | None => Ok (show_message (Warning "Error" "Unable to open raster with OpenCV.") d)
      | Some img =>
          let ext := extent layer_ras in
          cell_w ← truediv (rect_width ext) (width layer_ras);
          qx ← truediv_float (x_geo - xMinimum ext) cell_w;
          col ← py_int qx;
          cell_h ← truediv (rect_height ext) (height layer_ras);
          qy ← truediv_float (yMaximum ext - y_geo) cell_h;
          row ← py_int qy;
          if ((0 <=? row) && (row <? shape0 img) && (0 <=? col) && (col <? shape1 img))%bool
          then
            match pixel img (Z.to_nat row) (Z.to_nat col) with
            | Some (b, g, r) =>
                let d := set_muestras (muestras d ++ [(x_geo, y_geo, [r; g; b])]) d in
                Ok (set_status ("Samples collected: " ++ pretty (length (muestras d)))
                      (progressBar d) d)
            | None => Raise IndexError
            end
          else Ok d
      end
  | _ => Ok d
  end.

(** [PixelPickerTool.canvasPressEvent] for a click at map point [(x, y)]: the
    dialog's callback, then the marker. *)
Definition canvasPressEvent (G : Desktop) (d : Dialog) (x_geo y_geo : float)
  : result Dialog :=
  d ← _handle_pixel_click G d x_geo y_geo;
  Ok (set_tool (option_map (λ band, band ++ [(x_geo, y_geo)]) (pixelTool d)) (canvasTool d) d).

(** A series of clicks. *)
Fixpoint clicks (G : Desktop) (d : Dialog) (points : list PointXY) : result Dialog :=
  match points with
  | [] => Ok d
  | (x, y) :: rest => d ← canvasPressEvent G d x y; clicks G d rest
  end.

(** [segmentar_con_otsu]: the dialog and the project afterwards.  The layer
    added to the project is announced by [layerWasAdded], to which
    [_on_layers_changed] is connected. *)
Definition segmentar_con_otsu (B : Backend) (σ : World) (project : list MapLayer) (d : Dialog)
  : Dialog * list MapLayer :=
  match currentData (comboAOI d), currentData (comboRaster d) with
  | Some (VectorMapLayer _ _ _ layer_aoi), Some (RasterMapLayer _ layer_ras) =>
      match segment_olivos B σ layer_ras layer_aoi with
      | Raise exc => (show_message (Critical "Segmentation failed" exc) d, project)
      | Ok (vlayer, _) =>
          let lyr := VectorMapLayer "Olive_Canopies" (dataSourceUri vlayer)
                       PolygonGeometry vlayer in
          let project := project ++ [lyr] in
          let d := _on_layers_changed project d in
          let d := set_status ("Done! " ++ pretty (length (features vlayer))
                               ++ " canopies detected. Closing…") 100 d in
          let d := resetRubberBand d in
          (singleShot _CLOSE_DELAY_MS d, project)
      end
  | _, _ => (show_message (Warning "Error" "You must select valid AOI and raster.") d, project)
  end.

(** The items a refill puts in a combo box. *)
Definition combo_items (offered : MapLayer → bool) (project : list MapLayer)
  : list (string * MapLayer) :=
  map (λ lyr, (layer_name lyr, lyr)) (List.filter offered project).

(** A project with the demo raster and a shapefile AOI, and a desktop for it
    that reads every path as one colour image. *)
Definition demo_raster_layer : MapLayer :=
  RasterMapLayer "ortho"
    {| r_crs := demo_crs; extent := demo_extent; width := 5; height := 5;
       source := "/data/ortho.tif" |}.

Definition parcela_aoi : VectorLayer :=
  {| v_crs := demo_crs; dataSourceUri := "/data/parcela.shp";
     fields := []; features := features demo_aoi |}.

Definition demo_aoi_layer : MapLayer :=
  VectorMapLayer "parcela" "/data/parcela.shp" PolygonGeometry parcela_aoi.

(** The demo files, with the shapefile of [parcela_aoi] among them. *)
Definition parcela_world (tmp : string) : World :=
  {| files := <[ "/data/parcela.shp"%string := VectorFile demo_crs (features demo_aoi) ]>
                (files (demo_world tmp));
     next_tmpdir := tmp |}.

Definition demo_project : list MapLayer :=
  [demo_aoi_layer; OtherMapLayer "basemap"; demo_raster_layer].

Definition demo_color : ColorImage :=
  map (map (λ g, (g, g + 1, g + 2))) demo_gray.

Definition demo_desktop : Desktop :=
  {| destinationCrs := demo_crs;
     transform := λ _ _ x y, (x, y);
     imread_color := λ _, Some demo_color |}.

(** * Properties *)

Lemma bind_Ok {A B : Type} (m : result A) (k : A → result B) (b : B) :
  m ≫= k = Ok b → ∃ a, m = Ok a ∧ k a = Ok b.
Proof. destruct m as [a|e]; simpl; [eauto | discriminate]. Qed.

(** ** Boolean indexing *)

Lemma same_shape_true {A B : Type} (a : list (list A)) (b : list (list B)) :
  same_shape a b = true ↔ row_lengths a = row_lengths b.
Proof. unfold same_shape. apply bool_decide_eq_true. Qed.

Lemma has_shape_row_lengths {A : Type} (h w : nat) (a : list (list A)) :
  has_shape h w a ↔ row_lengths a = replicate h w.
Proof.
  unfold has_shape, row_lengths. revert h.
  induction a as [|row a IH]; intros h; simpl.
  - split.
    + intros [<- _]. reflexivity.
    + destruct h; [split; [reflexivity | constructor] | discriminate].
  - split.
    + intros [<- Hall]. inversion Hall as [|? ? Hrow Ha]; subst. simpl. f_equal.
      apply IH. split; [reflexivity | assumption].
    + destruct h as [|h]; [discriminate|]. simpl. intros [= Hrow Ha].
      apply IH in Ha as [Hlen Hall]. split; [congruence | constructor; assumption].
Qed.

Lemma row_lengths_map {A B : Type} (f : A → B) (a : list (list A)) :
  row_lengths (map (map f) a) = row_lengths a.
Proof.
  unfold row_lengths. induction a as [|row a IH]; simpl; [reflexivity|].
  rewrite length_map. f_equal. exact IH.
Qed.

Lemma select_row_length (src : list Z) (m : list bool) :
  length src = length m →
  length (select_row src m) = length (filter (λ b : bool, b = true) m).
Proof.
  revert src. induction m as [|b m IH]; intros [|x src]; simpl; try discriminate; [reflexivity|].
  intros [= Hlen]. destruct b.
  - rewrite filter_cons_True by reflexivity. simpl. f_equal. apply IH, Hlen.
  - rewrite filter_cons_False by discriminate. apply IH, Hlen.
Qed.

Lemma getitem_count (src : ndarray) (m : boolarray) :
  row_lengths src = row_lengths m →
  length (concat (zip_with select_row src m)) = count_true m.
Proof.
  unfold count_true, row_lengths. revert src.
  induction m as [|mrow m IH]; intros [|row src]; simpl; try discriminate; [reflexivity|].
  intros [= Hrow Hrest]. rewrite filter_app, !length_app.
  rewrite select_row_length by exact Hrow. f_equal. apply IH, Hrest.
Qed.

Lemma scatter_row_select (row src : list Z) (m : list bool) (rest : list Z) :
  length row = length m → length src = length m →
  scatter_row row m (select_row src m ++ rest)
  = (zip_with (λ (b : bool) (p : Z * Z), if b then p.1 else p.2) m (zip src row), rest).
Proof.
  revert row src. induction m as [|b m IH]; intros [|x row] [|s src]; simpl;
    try discriminate; [reflexivity|].
  intros [= Hrow] [= Hsrc]. destruct b; simpl.
  - rewrite IH by assumption. reflexivity.
  - rewrite IH by assumption. reflexivity.
Qed.

Lemma scatter_select (a src : ndarray) (m : boolarray) (rest : list Z) :
  row_lengths a = row_lengths m → row_lengths src = row_lengths m →
  scatter a m (concat (zip_with select_row src m) ++ rest)
  = zip_with (λ mrow (p : list Z * list Z),
      zip_with (λ (b : bool) (q : Z * Z), if b then q.1 else q.2) mrow (zip p.1 p.2))
      m (zip src a).
Proof.
  unfold row_lengths. revert a src rest.
  induction m as [|mrow m IH]; intros [|row a] [|srow src] rest; simpl;
    try discriminate; [reflexivity|].
  intros [= Hrow Ha] [= Hsrow Hsrc]. rewrite <- app_assoc.
  rewrite scatter_row_select by assumption. f_equal. apply IH; assumption.
Qed.

Lemma composite_row (mrow orow : list Z) :
  length mrow = length orow →
  let bin_row := zip_with (λ (b : bool) (q : Z * Z), if b then q.1 else q.2)
                   (map (λ x, x =? 1) mrow) (zip orow (map (λ _, 0) orow)) in
  zip_with (λ x (b : bool), if b then 255 else x) (map (λ _ : Z, 0) bin_row)
    (zip_with andb (map (λ x, x =? 1) mrow) (map (λ x, x =? 0) bin_row))
  = zip_with composite_pixel mrow orow.
Proof.
  revert orow. induction mrow as [|m mrow IH]; intros [|t orow]; simpl;
    try discriminate; [reflexivity|].
  intros [= Hlen]. f_equal; [|apply IH, Hlen].
  unfold composite_pixel. destruct (m =? 1); simpl; reflexivity.
Qed.

Lemma composite_rows (mask_arr otsu_full : ndarray) :
  row_lengths mask_arr = row_lengths otsu_full →
  let bin_img := zip_with (λ mrow (p : list Z * list Z),
        zip_with (λ (b : bool) (q : Z * Z), if b then q.1 else q.2) mrow (zip p.1 p.2))
        (eq_scalar mask_arr 1) (zip otsu_full (zeros_like otsu_full)) in
  zip_with (zip_with (λ x (b : bool), if b then 255 else x)) (zeros_like bin_img)
    (zip_with (zip_with andb) (eq_scalar mask_arr 1) (eq_scalar bin_img 0))
  = zip_with (zip_with composite_pixel) mask_arr otsu_full.
Proof.
  unfold row_lengths, eq_scalar, zeros_like. revert otsu_full.
  induction mask_arr as [|mrow mask_arr IH]; intros [|orow otsu_full]; simpl;
    try discriminate; [reflexivity|].
  intros [= Hrow Hrest]. f_equal; [|apply IH, Hrest].
  apply (composite_row mrow orow Hrow).
Qed.

Lemma row_lengths_zip_with {A B C : Type} (f : A → B → C)
    (a : list (list A)) (b : list (list B)) :
  row_lengths a = row_lengths b →
  row_lengths (zip_with (zip_with f) a b) = row_lengths a.
Proof.
  unfold row_lengths. revert b.
  induction a as [|ra a IH]; intros [|rb b]; simpl; try discriminate; [reflexivity|].
  intros [= Hrow Hrest]. rewrite length_zip_with, <- Hrow, Nat.min_id.
  f_equal. apply IH, Hrest.
Qed.

Lemma pixel_zip_with {A B C : Type} (f : A → B → C)
    (a : list (list A)) (b : list (list B)) (row col : nat) :
  pixel (zip_with (zip_with f) a b) row col
  = x ← pixel a row col; y ← pixel b row col; Some (f x y).
Proof.
  unfold pixel. rewrite lookup_zip_with.
  destruct (a !! row) as [ra|]; simpl; [|reflexivity].
  destruct (b !! row) as [rb|]; simpl.
  - rewrite lookup_zip_with. reflexivity.
  - destruct (ra !! col); reflexivity.
Qed.

(** The compositor succeeds on aligned arrays, and what it returns. *)
Lemma masked_composite_eq (mask_arr otsu_full : ndarray) :
  row_lengths mask_arr = row_lengths otsu_full →
  masked_composite mask_arr otsu_full
  = Ok (zip_with (zip_with composite_pixel) mask_arr otsu_full).
Proof.
  intros Hshape. unfold masked_composite, getitem_mask.
  assert (Hm : row_lengths (eq_scalar mask_arr 1) = row_lengths otsu_full)
    by (unfold eq_scalar; rewrite row_lengths_map; exact Hshape).
  assert (Hz : row_lengths (zeros_like otsu_full) = row_lengths otsu_full)
    by (unfold zeros_like; apply row_lengths_map).
  replace (same_shape otsu_full (eq_scalar mask_arr 1)) with true
    by (symmetry; apply same_shape_true; congruence).
  simpl. unfold setitem_mask.
  replace (same_shape (zeros_like otsu_full) (eq_scalar mask_arr 1)) with true
    by (symmetry; apply same_shape_true; congruence).
  rewrite getitem_count by congruence.
  rewrite bool_decide_eq_true_2 by reflexivity. simpl.
  rewrite <- (app_nil_r (concat _)).
  rewrite scatter_select by congruence.
  set (bin_img := zip_with _ (eq_scalar mask_arr 1) _).
  assert (Hbin : row_lengths bin_img = row_lengths otsu_full).
  { subst bin_img. clear Hm Hz. unfold row_lengths, eq_scalar, zeros_like in *.
    revert otsu_full Hshape.
    induction mask_arr as [|mrow mask_arr IH]; intros [|orow otsu_full]; simpl;
      try discriminate; [reflexivity|].
    intros [= Hrow Hrest]. f_equal; [|apply IH, Hrest].
    rewrite length_zip_with, length_zip, !length_map. lia. }
  unfold logical_and.
  replace (same_shape (eq_scalar mask_arr 1) (eq_scalar bin_img 0)) with true
    by (symmetry; apply same_shape_true; unfold eq_scalar;
        rewrite !row_lengths_map; congruence).
  simpl. unfold setitem_mask_scalar.
  replace (same_shape _ _) with true.
  - f_equal. subst bin_img. apply composite_rows, Hshape.
  - symmetry. apply same_shape_true. unfold zeros_like, eq_scalar.
    rewrite row_lengths_zip_with by (rewrite !row_lengths_map; congruence).
    rewrite !row_lengths_map. congruence.
Qed.

(** C1: on an AOI mask and a thresholded image of one shape, [h] rows of [w]
    columns, the compositor returns an image of that shape in which a pixel
    is foreground (255) exactly when the mask is 1 and the thresholded value
    is 0 there, and is 0 everywhere else. *)
Theorem masked_composite_foreground (h w : nat) (mask_arr otsu_full : ndarray) :
  has_shape h w mask_arr → has_shape h w otsu_full →
  ∃ mask_trees,
    masked_composite mask_arr otsu_full = Ok mask_trees ∧
    has_shape h w mask_trees ∧
    ∀ row col m t,
      pixel mask_arr row col = Some m → pixel otsu_full row col = Some t →
      pixel mask_trees row col = Some (if ((m =? 1) && (t =? 0))%bool then 255 else 0).
Proof.
  intros Hmask Hotsu.
  pose proof (proj1 (has_shape_row_lengths h w mask_arr) Hmask) as Hm.
  pose proof (proj1 (has_shape_row_lengths h w otsu_full) Hotsu) as Ho.
  eexists. split; [apply masked_composite_eq; congruence|]. split.
  - apply has_shape_row_lengths. rewrite row_lengths_zip_with; congruence.
  - intros row col m t Hpm Hpt. rewrite pixel_zip_with, Hpm, Hpt. reflexivity.
Qed.

Lemma masked_composite_foreground_witness :
  ∃ mask_trees,
    masked_composite [[1; 1; 0]; [0; 1; 1]] [[0; 255; 0]; [0; 0; 255]] = Ok mask_trees ∧
    has_shape 2 3 mask_trees ∧
    ∀ row col m t,
      pixel [[1; 1; 0]; [0; 1; 1]] row col = Some m →
      pixel [[0; 255; 0]; [0; 0; 255]] row col = Some t →
      pixel mask_trees row col = Some (if ((m =? 1) && (t =? 0))%bool then 255 else 0).
Proof.
  apply (masked_composite_foreground 2 3); (split; [reflexivity | repeat constructor]).
Defined.

(** ** The AOI rasterizer *)

Lemma rasterize_aoi_unfold (B : Backend) (σ : World) (aoi : VectorLayer) (ras : RasterLayer) :
  _rasterize_aoi B σ aoi ras
  = aoi_proj ← _reproject_aoi_to_raster B σ aoi ras;
    '(aoi_file, σ') ← _prepare_aoi_file B σ aoi_proj;
    rasterize_prepared B σ' aoi_file ras.
Proof.
  unfold _rasterize_aoi, rasterize_prepared, truediv.
  destruct (_reproject_aoi_to_raster B σ aoi ras) as [aoi_proj|e]; simpl; [|reflexivity].
  destruct (_prepare_aoi_file B σ aoi_proj) as [[aoi_file σ']|e]; simpl; [|reflexivity].
  destruct (width ras =? 0); simpl; [reflexivity|].
  destruct (height ras =? 0); simpl; [reflexivity|].
  destruct (mem_Create (width ras) (height ras)) as [band|]; simpl; [|reflexivity].
  destruct (ogr_Open σ' aoi_file) as [layer|]; simpl; [|reflexivity].
  fold (raster_gt ras).
  destruct (rasterize_error B (raster_gt ras) band layer =? 0); reflexivity.
Qed.

Lemma rasterize_aoi_Ok (B : Backend) (σ : World) (aoi : VectorLayer) (ras : RasterLayer) r :
  _rasterize_aoi B σ aoi ras = Ok r →
  ∃ aoi_proj aoi_file σ',
    _reproject_aoi_to_raster B σ aoi ras = Ok aoi_proj ∧
    _prepare_aoi_file B σ aoi_proj = Ok (aoi_file, σ') ∧
    rasterize_prepared B σ' aoi_file ras = Ok r.
Proof.
  rewrite rasterize_aoi_unfold. intros H.
  apply bind_Ok in H as (aoi_proj & Hproj & H).
  apply bind_Ok in H as ([aoi_file σ'] & Hprep & H).
  eauto 6.
Qed.

Lemma has_shape_map {A B : Type} (f : A → B) (h w : nat) (a : list (list A)) :
  has_shape h w a → has_shape h w (map (map f) a).
Proof.
  rewrite !has_shape_row_lengths, row_lengths_map. trivial.
Qed.

Lemma has_shape_replicate {A : Type} (h w : nat) (x : A) :
  has_shape h w (replicate h (replicate w x)).
Proof.
  apply has_shape_row_lengths. unfold row_lengths.
  rewrite fmap_replicate, length_replicate. reflexivity.
Qed.

Lemma has_shape_burn (B : Backend) gt layer (h w : nat) (band : ndarray) :
  has_shape h w band → has_shape h w (burn B gt layer band).
Proof.
  unfold has_shape, burn. intros [Hlen Hrows]. split.
  - rewrite length_imap. exact Hlen.
  - apply Forall_forall. intros row Hin.
    apply elem_of_lookup_imap_1 in Hin as (i & old & -> & Hold).
    rewrite length_imap. rewrite Forall_forall in Hrows.
    apply Hrows. eapply list_elem_of_lookup_2, Hold.
Qed.

Lemma mem_Create_Some (w h : Z) (band : ndarray) :
  mem_Create w h = Some band →
  0 < w ∧ 0 < h ∧ band = replicate (Z.to_nat h) (replicate (Z.to_nat w) 0).
Proof.
  unfold mem_Create. destruct (w <? 1) eqn:Hw; simpl; [discriminate|].
  destruct (h <? 1) eqn:Hh; simpl; [discriminate|].
  intros [= <-]. apply Z.ltb_ge in Hw, Hh. repeat split; lia.
Qed.

Lemma astype_binary (m : boolarray) :
  Forall (Forall (λ v, v = 0 ∨ v = 1)) (astype_uint8 m).
Proof.
  unfold astype_uint8. apply Forall_forall. intros row Hrow.
  apply list_elem_of_fmap in Hrow as (brow & -> & _).
  apply Forall_forall. intros v Hv.
  apply list_elem_of_fmap in Hv as ([|] & -> & _); auto.
Qed.

(** C10: whenever [_rasterize_aoi] returns, the mask has [h] rows of [w]
    columns, [w] and [h] being the raster's width and height, and every
    element of it is 0 or 1. *)
Theorem rasterize_aoi_mask_binary (B : Backend) (σ : World) (aoi : VectorLayer)
    (ras : RasterLayer) mask_arr ext px_x px_y w h σ' :
  _rasterize_aoi B σ aoi ras = Ok (mask_arr, ext, px_x, px_y, w, h, σ') →
  w = width ras ∧ h = height ras ∧
  has_shape (Z.to_nat h) (Z.to_nat w) mask_arr ∧
  Forall (Forall (λ v, v = 0 ∨ v = 1)) mask_arr.
Proof.
  intros H. apply rasterize_aoi_Ok in H as (aoi_proj & aoi_file & σ1 & _ & _ & H).
  unfold rasterize_prepared in H.
  destruct (width ras =? 0); [discriminate|].
  destruct (height ras =? 0); [discriminate|].
  destruct (mem_Create (width ras) (height ras)) as [band|] eqn:Hband; [|discriminate].
  destruct (ogr_Open σ1 aoi_file) as [layer|]; [|discriminate].
  destruct (rasterize_error B (raster_gt ras) band layer =? 0); [|discriminate].
  injection H as <- <- <- <- <- <- <-.
  apply mem_Create_Some in Hband as (_ & _ & ->).
  split; [reflexivity|]. split; [reflexivity|]. split.
  - unfold astype_uint8, gt_scalar. do 2 apply has_shape_map.
    apply has_shape_burn, has_shape_replicate.
  - apply astype_binary.
Qed.

Lemma rasterize_aoi_mask_binary_witness :
  let mask_arr := replicate 5 (replicate 5 1) in
  5 = width demo_ras ∧ 5 = height demo_ras ∧
  has_shape 5 5 mask_arr ∧ Forall (Forall (λ v, v = 0 ∨ v = 1)) mask_arr.
Proof.
  eapply (rasterize_aoi_mask_binary demo_backend (demo_world "/tmp/tmpq1x8") demo_aoi demo_ras).
  vm_compute. reflexivity.
Defined.

Lemma no_foreign_exn {A : Type} (name : string) (r : result A) :
  name ∉ ["RuntimeError"; "ZeroDivisionError"; "IndexError"; "ValueError";
          "OverflowError"; "AttributeError"]%string →
  ¬ fails_with name r.
Proof.
  intros Hname Hfail. apply Hname. destruct r as [a|e]; [contradiction|].
  simpl in Hfail. subst name. destruct e; simpl; rewrite !elem_of_cons; tauto.
Qed.

Lemma rasterize_aoi_prepared (B : Backend) (σ σ' : World) (aoi aoi_proj : VectorLayer)
    (ras : RasterLayer) (aoi_file : string) :
  _reproject_aoi_to_raster B σ aoi ras = Ok aoi_proj →
  _prepare_aoi_file B σ aoi_proj = Ok (aoi_file, σ') →
  _rasterize_aoi B σ aoi ras = rasterize_prepared B σ' aoi_file ras.
Proof.
  intros Hproj Hprep. rewrite rasterize_aoi_unfold, Hproj. simpl.
  rewrite Hprep. reflexivity.
Qed.

Lemma mem_Create_pos (w h : Z) :
  0 < w → 0 < h →
  mem_Create w h = Some (replicate (Z.to_nat h) (replicate (Z.to_nat w) 0)).
Proof.
  intros Hw Hh. unfold mem_Create.
  destruct (Z.ltb_spec w 1); [lia|]. destruct (Z.ltb_spec h 1); [lia|]. reflexivity.
Qed.

Lemma mem_Create_None (w h : Z) : w ≤ 0 ∨ h ≤ 0 → mem_Create w h = None.
Proof.
  intros Hwh. unfold mem_Create.
  destruct (Z.ltb_spec w 1); [reflexivity|].
  destruct (Z.ltb_spec h 1); [reflexivity|]. lia.
Qed.

(** C3, as the code has it: [_rasterize_aoi] checks nothing about the grid
    and never raises InvalidGridError.  It returns nothing when W ≤ 0 or
    H ≤ 0: once the AOI is reprojected and written, W = 0 or H = 0 raise
    ZeroDivisionError in the geotransform.  The bounds are not looked at:
    with W, H > 0 the function succeeds as soon as OGR opens the AOI file
    and RasterizeLayer reports no error, whatever the order of x_min, x_max
    and of y_min, y_max. *)
Theorem rasterize_aoi_grid_unchecked (B : Backend) (σ : World) (aoi : VectorLayer)
    (ras : RasterLayer) :
  ¬ fails_with "InvalidGridError" (_rasterize_aoi B σ aoi ras) ∧
  (width ras ≤ 0 ∨ height ras ≤ 0 → ¬ succeeds (_rasterize_aoi B σ aoi ras)) ∧
  ∀ aoi_proj aoi_file σ',
    _reproject_aoi_to_raster B σ aoi ras = Ok aoi_proj →
    _prepare_aoi_file B σ aoi_proj = Ok (aoi_file, σ') →
    (width ras = 0 ∨ height ras = 0 →
       _rasterize_aoi B σ aoi ras = Raise ZeroDivisionError) ∧
    (0 < width ras → 0 < height ras →
       ∀ layer, ogr_Open σ' aoi_file = Some layer →
         rasterize_error B (raster_gt ras)
           (replicate (Z.to_nat (height ras)) (replicate (Z.to_nat (width ras)) 0)) layer = 0 →
         succeeds (_rasterize_aoi B σ aoi ras)).
Proof.
  split; [apply no_foreign_exn; rewrite !elem_of_cons, elem_of_nil; intuition discriminate|]. split.
  - intros Hdeg Hok. destruct (_rasterize_aoi B σ aoi ras) as [r|e] eqn:H; [|contradiction].
    apply rasterize_aoi_Ok in H as (aoi_proj & aoi_file & σ1 & _ & _ & H).
    unfold rasterize_prepared in H. rewrite (mem_Create_None _ _ Hdeg) in H.
    destruct (width ras =? 0); [discriminate|].
    destruct (height ras =? 0); discriminate.
  - intros aoi_proj aoi_file σ' Hproj Hprep.
    rewrite (rasterize_aoi_prepared _ _ _ _ _ _ _ Hproj Hprep).
    unfold rasterize_prepared. split.
    + intros [Hw|Hh].
      * rewrite Hw. reflexivity.
      * rewrite Hh. destruct (width ras =? 0); reflexivity.
    + intros Hw Hh layer Hopen Herr.
      destruct (Z.eqb_spec (width ras) 0); [lia|].
      destruct (Z.eqb_spec (height ras) 0); [lia|].
      rewrite (mem_Create_pos _ _ Hw Hh), Hopen, Herr. exact I.
Qed.

Lemma rasterize_aoi_grid_unchecked_witness :
  _rasterize_aoi demo_backend (demo_world "/tmp/tmpq1x8") demo_aoi empty_ras
  = Raise ZeroDivisionError.
Proof.
  eapply (rasterize_aoi_grid_unchecked demo_backend (demo_world "/tmp/tmpq1x8") demo_aoi empty_ras).
  - vm_compute. reflexivity.
  - vm_compute. reflexivity.
  - left. reflexivity.
Defined.

(** A raster whose x_max is below x_min is rasterized without any error, and
    one without columns fails with ZeroDivisionError: InvalidGridError is
    raised by neither. *)
Lemma rasterize_aoi_grid_counterexample :
  (xMaximum (extent flipped_ras) <=? xMinimum (extent flipped_ras))%float = true ∧
  succeeds (_rasterize_aoi demo_backend (demo_world "/tmp/tmpq1x8") demo_aoi flipped_ras) ∧
  width empty_ras ≤ 0 ∧
  ¬ fails_with "InvalidGridError"
      (_rasterize_aoi demo_backend (demo_world "/tmp/tmpq1x8") demo_aoi empty_ras).
Proof.
  split; [reflexivity|]. split; [vm_compute; exact I|]. split; [simpl; lia|].
  vm_compute. discriminate.
Qed.

Lemma imap_same {A : Type} (l : list A) : imap (λ _ x, x) l = l.
Proof.
  change (λ (_ : nat) (x : A), x) with (@const (A → A) nat id).
  rewrite imap_const. apply list_fmap_id.
Qed.

Lemma burn_nothing (B : Backend) (gt : GeoTransform) (band : ndarray) :
  burn B gt [] band = band.
Proof.
  unfold burn. simpl.
  rewrite (imap_ext _ (λ _ row, row)); [apply imap_same|].
  intros i row _. simpl. apply imap_same.
Qed.

Lemma all_zero_replicate (h w : nat) : all_zero (replicate h (replicate w 0)).
Proof.
  unfold all_zero. apply Forall_replicate, Forall_replicate. reflexivity.
Qed.

Lemma astype_gt_zero (a : ndarray) :
  all_zero a → astype_uint8 (gt_scalar a 0) = a.
Proof.
  unfold all_zero, astype_uint8, gt_scalar. intros Hzero.
  induction Hzero as [|row a Hrow _ IH]; simpl; [reflexivity|].
  f_equal; [|exact IH]. clear IH.
  induction Hrow as [|x row -> _ IH]; simpl; [reflexivity|]. f_equal. exact IH.
Qed.

(** C4, as the code has it: [_rasterize_aoi] never raises AoiEmptyError or
    RasterizationError and does not look for rings in the AOI.  Once the AOI
    is reprojected and written and the MEM data set exists, a non-zero
    error code of RasterizeLayer raises RuntimeError("GDAL RasterizeLayer
    error"); for an AOI file without features on which RasterizeLayer
    reports no error, the function returns the all-zero mask. *)
Theorem rasterize_aoi_aoi_unchecked (B : Backend) (σ : World) (aoi : VectorLayer)
    (ras : RasterLayer) :
  ¬ fails_with "AoiEmptyError" (_rasterize_aoi B σ aoi ras) ∧
  ¬ fails_with "RasterizationError" (_rasterize_aoi B σ aoi ras) ∧
  ∀ aoi_proj aoi_file σ' band layer,
    _reproject_aoi_to_raster B σ aoi ras = Ok aoi_proj →
    _prepare_aoi_file B σ aoi_proj = Ok (aoi_file, σ') →
    mem_Create (width ras) (height ras) = Some band →
    ogr_Open σ' aoi_file = Some layer →
    (rasterize_error B (raster_gt ras) band layer ≠ 0 →
       _rasterize_aoi B σ aoi ras = Raise (RuntimeError "GDAL RasterizeLayer error")) ∧
    (layer = [] → rasterize_error B (raster_gt ras) band layer = 0 →
       ∃ mask_arr px_x px_y,
         _rasterize_aoi B σ aoi ras
         = Ok (mask_arr, extent ras, px_x, px_y, width ras, height ras, σ') ∧
         all_zero mask_arr).
Proof.
  split; [apply no_foreign_exn; rewrite !elem_of_cons, elem_of_nil; intuition discriminate|].
  split; [apply no_foreign_exn; rewrite !elem_of_cons, elem_of_nil; intuition discriminate|].
  intros aoi_proj aoi_file σ' band layer Hproj Hprep Hband Hopen.
  rewrite (rasterize_aoi_prepared _ _ _ _ _ _ _ Hproj Hprep).
  unfold rasterize_prepared. rewrite Hband, Hopen.
  apply mem_Create_Some in Hband as (Hw & Hh & ->).
  destruct (Z.eqb_spec (width ras) 0); [lia|].
  destruct (Z.eqb_spec (height ras) 0); [lia|]. split.
  - intros Herr. apply Z.eqb_neq in Herr. rewrite Herr. reflexivity.
  - intros -> Herr. rewrite Herr. do 3 eexists. split; [reflexivity|].
    rewrite burn_nothing, astype_gt_zero by apply all_zero_replicate.
    apply all_zero_replicate.
Qed.

Lemma rasterize_aoi_aoi_unchecked_witness :
  ∃ mask_arr px_x px_y,
    _rasterize_aoi demo_backend (demo_world "/tmp/tmpq1x8") empty_aoi demo_ras
    = Ok (mask_arr, extent demo_ras, px_x, px_y, width demo_ras, height demo_ras,
          write_file (demo_world "/tmp/tmpq1x8") "/tmp/tmpq1x8/aoi_temp.shp"
            (VectorFile demo_crs [])) ∧
    all_zero mask_arr.
Proof.
  eapply (rasterize_aoi_aoi_unchecked demo_backend (demo_world "/tmp/tmpq1x8") empty_aoi demo_ras).
  - vm_compute. reflexivity.
  - vm_compute. reflexivity.
  - vm_compute. reflexivity.
  - vm_compute. reflexivity.
  - reflexivity.
  - reflexivity.
Defined.

(** An AOI layer without a single feature is rasterized without any error:
    the all-zero mask comes back. *)
Lemma rasterize_aoi_empty_counterexample :
  features empty_aoi = [] ∧
  ∃ σ', _rasterize_aoi demo_backend (demo_world "/tmp/tmpq1x8") empty_aoi demo_ras
        = Ok (replicate 5 (replicate 5 0), demo_extent, 1%float, 1%float, 5, 5, σ').
Proof.
  split; [reflexivity|]. eexists. vm_compute. reflexivity.
Qed.

(** ** The polygon builder *)

Lemma segment_olivos_split (B : Backend) (σ : World) (ras : RasterLayer) (aoi : VectorLayer) :
  segment_olivos B σ ras aoi
  = '(mask_trees, ext, px_x, px_y, σ') ← segment_mask B σ ras aoi;
    vlayer ← build_layer B ras ext px_x px_y mask_trees;
    Ok (vlayer, σ').
Proof.
  unfold segment_olivos, segment_mask, build_layer, raster_path.
  destruct (_rasterize_aoi B σ aoi ras) as [[[[[[[mask_arr ext] px_x] px_y] w] h] σ']|e];
    simpl; [|reflexivity].
  destruct (imread_grayscale σ' _) as [img|]; simpl; [|reflexivity].
  destruct (masked_composite mask_arr _) as [mask_trees|e]; simpl; [|reflexivity].
  destruct (add_features B ext px_x px_y [] _) as [feats|e]; reflexivity.
Qed.

Lemma segment_olivos_Ok (B : Backend) (σ σ' : World) (ras : RasterLayer) (aoi : VectorLayer)
    (vlayer : VectorLayer) :
  segment_olivos B σ ras aoi = Ok (vlayer, σ') →
  ∃ mask_trees ext px_x px_y,
    segment_mask B σ ras aoi = Ok (mask_trees, ext, px_x, px_y, σ') ∧
    add_features B ext px_x px_y [] (enumerate 1 (findContours B mask_trees))
    = Ok (features vlayer).
Proof.
  rewrite segment_olivos_split. intros H.
  apply bind_Ok in H as ([[[[mask_trees ext] px_x] px_y] σ1] & Hmask & H).
  apply bind_Ok in H as (vl & Hbuild & [= -> ->]).
  unfold build_layer in Hbuild.
  apply bind_Ok in Hbuild as (feats & Hfeats & [= <-]).
  exists mask_trees, ext, px_x, px_y. split; [exact Hmask | exact Hfeats].
Qed.

Lemma build_feature_Ok (B : Backend) ext px_x px_y i cnt f :
  build_feature B ext px_x px_y i cnt = Ok f ↔
  ∃ area_px, py_int (contourArea B cnt) = Ok area_px ∧
    f = {| geometry := [map (pixel_to_geo ext px_x px_y) cnt]; attributes := [i; area_px] |}.
Proof.
  unfold build_feature. split.
  - intros H. apply bind_Ok in H as (area & Harea & [= <-]). eauto.
  - intros (area & -> & ->). reflexivity.
Qed.

Lemma kept_cons_degenerate {A : Type} (i : A) (cnt : Contour) rest :
  (length cnt < 3)%nat → kept ((i, cnt) :: rest) = kept rest.
Proof. intros H. unfold kept. rewrite filter_cons_False; [reflexivity | simpl; lia]. Qed.

Lemma kept_cons_valid {A : Type} (i : A) (cnt : Contour) rest :
  (3 ≤ length cnt)%nat → kept ((i, cnt) :: rest) = (i, cnt) :: kept rest.
Proof. intros H. unfold kept. rewrite filter_cons_True; [reflexivity | simpl; lia]. Qed.

(** What the loop returns: the provider's features, then one feature for
    each kept contour, in order. *)
Lemma add_features_Ok (B : Backend) ext px_x px_y contornos :
  ∀ prov feats,
    add_features B ext px_x px_y prov contornos = Ok feats ↔
    ∃ fs, feats = prov ++ fs ∧
      Forall2 (λ ic f, build_feature B ext px_x px_y ic.1 ic.2 = Ok f) (kept contornos) fs.
Proof.
  induction contornos as [|[i cnt] rest IH]; intros prov feats; simpl.
  - split.
    + intros [= <-]. exists []. rewrite app_nil_r. split; [reflexivity | constructor].
    + intros (fs & -> & Hfs). inversion Hfs. rewrite app_nil_r. reflexivity.
  - destruct (Nat.ltb_spec (length cnt) 3) as [Hdeg|Hval].
    + rewrite kept_cons_degenerate by exact Hdeg. apply IH.
    + rewrite kept_cons_valid by exact Hval. split.
      * intros H. apply bind_Ok in H as (feat & Hfeat & H).
        apply IH in H as (fs & -> & Hfs). exists (feat :: fs).
        rewrite <- app_assoc. split; [reflexivity|]. constructor; assumption.
      * intros (fs & -> & Hfs). inversion Hfs as [|? feat ? fs' Hfeat Hfs']; subst.
        simpl in Hfeat. rewrite Hfeat. simpl. apply IH. exists fs'.
        rewrite <- app_assoc. split; [reflexivity | assumption].
Qed.

(** The loop fails only when an area does not convert. *)
Lemma add_features_total (B : Backend) ext px_x px_y contornos :
  Forall (λ ic : Z * Contour, succeeds (py_int (contourArea B ic.2))) (kept contornos) →
  ∀ prov, succeeds (add_features B ext px_x px_y prov contornos).
Proof.
  induction contornos as [|[i cnt] rest IH]; intros Hareas prov; simpl; [exact I|].
  destruct (Nat.ltb_spec (length cnt) 3) as [Hdeg|Hval].
  - apply IH. rewrite kept_cons_degenerate in Hareas by exact Hdeg. exact Hareas.
  - rewrite kept_cons_valid in Hareas by exact Hval.
    inversion Hareas as [|? ? Harea Hrest]; subst. simpl in Harea.
    unfold build_feature. destruct (py_int (contourArea B cnt)); [|contradiction].
    simpl. apply IH, Hrest.
Qed.

Lemma enumerate_fst {A : Type} (l : list A) (start : Z) :
  map fst (enumerate start l) = seqZ start (Z.of_nat (length l)).
Proof.
  revert start. induction l as [|x l IH]; intros start; [reflexivity|].
  cbn [enumerate map length fst]. rewrite Nat2Z.inj_succ, seqZ_cons by lia.
  rewrite IH. do 2 f_equal; lia.
Qed.

Lemma enumerate_snd {A : Type} (l : list A) (start : Z) :
  map snd (enumerate start l) = l.
Proof.
  revert start. induction l as [|x l IH]; intros start; simpl; [reflexivity|].
  f_equal. apply IH.
Qed.

Lemma enumerate_lookup {A : Type} (l : list A) (start : Z) (k : nat) (i : Z) (x : A) :
  enumerate start l !! k = Some (i, x) ↔ i = start + Z.of_nat k ∧ l !! k = Some x.
Proof.
  revert start k. induction l as [|y l IH]; intros start k; simpl.
  - rewrite !lookup_nil. split; [discriminate | intros [_ ?]; discriminate].
  - destruct k as [|k]; simpl.
    + split; [intros [= <- <-]; split; [lia | reflexivity]|].
      intros [-> [= <-]]. do 2 f_equal. lia.
    + rewrite IH. split; intros [-> Hx]; (split; [lia | exact Hx]).
Qed.

Lemma kept_all {A : Type} (contornos : list (A * Contour)) :
  Forall (λ ic : A * Contour, (3 ≤ length ic.2)%nat) contornos → kept contornos = contornos.
Proof.
  induction 1 as [|[i cnt] rest Hval _ IH]; [reflexivity|].
  rewrite kept_cons_valid by exact Hval. f_equal. exact IH.
Qed.

Lemma build_feature_id (B : Backend) ext px_x px_y :
  ∀ ics fs,
    Forall2 (λ (ic : Z * Contour) f, build_feature B ext px_x px_y ic.1 ic.2 = Ok f) ics fs →
    map feature_id fs = map (λ ic, Some ic.1) ics.
Proof.
  induction 1 as [|[i cnt] f ics fs Hf _ IH]; simpl; [reflexivity|].
  apply build_feature_Ok in Hf as (area & _ & ->). f_equal. exact IH.
Qed.

Lemma kept_enumerate_snd (l : list Contour) (start : Z) :
  map snd (kept (enumerate start l)) = filter (λ cnt : Contour, (3 ≤ length cnt)%nat) l.
Proof.
  revert start. induction l as [|cnt l IH]; intros start; [reflexivity|].
  cbn [enumerate]. destruct (decide (3 ≤ length cnt)%nat) as [Hval|Hdeg].
  - rewrite kept_cons_valid, filter_cons_True by exact Hval. simpl. f_equal. apply IH.
  - rewrite kept_cons_degenerate, filter_cons_False by lia. apply IH.
Qed.

Lemma kept_enumerate_lookup (l : list Contour) (k : nat) (i : Z) (cnt : Contour) :
  kept (enumerate 1 l) !! k = Some (i, cnt) →
  ∃ j, l !! j = Some cnt ∧ i = Z.of_nat j + 1 ∧ (3 ≤ length cnt)%nat.
Proof.
  intros Hk. apply list_elem_of_lookup_2 in Hk. unfold kept in Hk.
  apply list_elem_of_filter in Hk as [Hval Hin]. simpl in Hval.
  apply list_elem_of_lookup_1 in Hin as [j Hj].
  apply enumerate_lookup in Hj as [-> Hj]. exists j. repeat split; [exact Hj | lia | exact Hval].
Qed.

(** C2, as the code has it: the ID of an emitted polygon is the 1-based
    position of its contour in the tracer's output, the discarded contours
    counted.  The IDs are 1, 2, ..., n without gaps when no traced contour is
    degenerate. *)
Theorem segment_olivos_ids (B : Backend) (σ σ' : World) (ras : RasterLayer)
    (aoi : VectorLayer) (vlayer : VectorLayer) :
  segment_olivos B σ ras aoi = Ok (vlayer, σ') →
  ∃ mask_trees ext px_x px_y,
    segment_mask B σ ras aoi = Ok (mask_trees, ext, px_x, px_y, σ') ∧
    let contornos := findContours B mask_trees in
    map feature_id (features vlayer)
      = map (λ ic, Some ic.1) (kept (enumerate 1 contornos)) ∧
    (∀ k f, features vlayer !! k = Some f →
       ∃ j cnt, contornos !! j = Some cnt ∧ (3 ≤ length cnt)%nat ∧
                feature_id f = Some (Z.of_nat j + 1)) ∧
    (Forall (λ cnt : Contour, (3 ≤ length cnt)%nat) contornos →
       map feature_id (features vlayer) = map Some (seqZ 1 (Z.of_nat (length contornos)))).
Proof.
  intros H. apply segment_olivos_Ok in H as (mask_trees & ext & px_x & px_y & Hmask & Hfeats).
  exists mask_trees, ext, px_x, px_y. split; [exact Hmask|].
  apply add_features_Ok in Hfeats as (fs & Hfs & Hall). simpl in Hfs. subst fs.
  pose proof (build_feature_id _ _ _ _ _ _ Hall) as Hids.
  cbv zeta. split; [exact Hids|]. split.
  - intros k f Hk.
    destruct (Forall2_lookup_r _ _ _ _ _ Hall Hk) as ([i cnt] & Hic & Hbuild).
    apply kept_enumerate_lookup in Hic as (j & Hj & -> & Hval).
    apply build_feature_Ok in Hbuild as (area & _ & ->).
    exists j, cnt. repeat split; assumption.
  - intros Hvalid. rewrite Hids, kept_all.
    + rewrite <- enumerate_fst, map_map. reflexivity.
    + apply Forall_forall. intros [i cnt] Hin.
      apply list_elem_of_lookup_1 in Hin as [j Hj].
      apply enumerate_lookup in Hj as [_ Hj]. simpl.
      rewrite Forall_forall in Hvalid. apply Hvalid. eapply list_elem_of_lookup_2, Hj.
Qed.

Lemma segment_olivos_ids_witness :
  ∃ mask_trees ext px_x px_y,
    segment_mask demo_backend (demo_world "/tmp/tmpq1x8") demo_ras demo_aoi
    = Ok (mask_trees, ext, px_x, px_y,
          write_file (demo_world "/tmp/tmpq1x8") "/tmp/tmpq1x8/aoi_temp.shp"
            (VectorFile demo_crs (features demo_aoi))) ∧
    let contornos := findContours demo_backend mask_trees in
    [Some 2] = map (λ ic, Some ic.1) (kept (enumerate 1 contornos)) ∧
    (∀ k f,
       [{| geometry := [[(500002.5, 6000003.5); (500002.5, 6000002.5);
                         (500003.5, 6000002.5); (500003.5, 6000003.5)]]%float;
           attributes := [2; 1] |}] !! k = Some f →
       ∃ j cnt, contornos !! j = Some cnt ∧ (3 ≤ length cnt)%nat ∧
                feature_id f = Some (Z.of_nat j + 1)) ∧
    (Forall (λ cnt : Contour, (3 ≤ length cnt)%nat) contornos →
       [Some 2] = map Some (seqZ 1 (Z.of_nat (length contornos)))).
Proof.
  eapply (segment_olivos_ids demo_backend (demo_world "/tmp/tmpq1x8") _ demo_ras demo_aoi
            {| v_crs := demo_crs; dataSourceUri := "Polygon?crs=EPSG:32719";
               fields := ["ID"; "Area_px"]%string;
               features := [{| geometry := [[(500002.5, 6000003.5); (500002.5, 6000002.5);
                                            (500003.5, 6000002.5); (500003.5, 6000003.5)]]%float;
                               attributes := [2; 1] |}] |}).
  vm_compute. reflexivity.
Defined.

(** With a single dark pixel traced before a 2 by 2 block, the only polygon
    emitted carries ID 2: the IDs do not start at 1. *)
Lemma segment_olivos_ids_counterexample :
  ∃ vlayer ext px_x px_y σ',
    segment_mask demo_backend (demo_world "/tmp/tmpq1x8") demo_ras demo_aoi
    = Ok (demo_trees, ext, px_x, px_y, σ') ∧
    findContours demo_backend demo_trees = [[(0, 4)]; [(2, 1); (2, 2); (3, 2); (3, 1)]] ∧
    segment_olivos demo_backend (demo_world "/tmp/tmpq1x8") demo_ras demo_aoi
    = Ok (vlayer, σ') ∧
    map feature_id (features vlayer) = [Some 2].
Proof.
  do 5 eexists. split; [vm_compute; reflexivity|]. split; [reflexivity|].
  split; [vm_compute; reflexivity|]. reflexivity.
Qed.

Lemma Forall2_with_left {A B : Type} (P : A → Prop) (R : A → B → Prop) l k :
  Forall P l → Forall2 R l k → Forall2 (λ x y, P x ∧ R x y) l k.
Proof.
  intros HP HR. induction HR as [|x y l k Hxy _ IH]; [constructor|].
  inversion HP; subst. constructor; auto.
Qed.

(** C7: if the areas of the contours that are kept convert to integers, the
    run returns a layer; its polygons are, in order, one for each traced
    contour of 3 or more vertices, with that contour's vertices; a contour
    of fewer than 3 vertices, 2 included, leaves no polygon and no error. *)
Theorem degenerate_contours_discarded (B : Backend) (σ σ' : World) (ras : RasterLayer)
    (aoi : VectorLayer) mask_trees ext px_x px_y :
  segment_mask B σ ras aoi = Ok (mask_trees, ext, px_x, px_y, σ') →
  Forall (λ cnt : Contour, (3 ≤ length cnt)%nat → succeeds (py_int (contourArea B cnt)))
    (findContours B mask_trees) →
  ∃ vlayer,
    segment_olivos B σ ras aoi = Ok (vlayer, σ') ∧
    length (features vlayer)
      = length (filter (λ cnt : Contour, (3 ≤ length cnt)%nat) (findContours B mask_trees)) ∧
    Forall2 (λ (cnt : Contour) f,
               (3 ≤ length cnt)%nat ∧
               ∃ i area_px, f = {| geometry := [map (pixel_to_geo ext px_x px_y) cnt];
                                   attributes := [i; area_px] |})
      (filter (λ cnt : Contour, (3 ≤ length cnt)%nat) (findContours B mask_trees))
      (features vlayer).
Proof.
  intros Hmask Hareas. rewrite segment_olivos_split, Hmask. simpl. unfold build_layer.
  set (contornos := findContours B mask_trees) in *.
  assert (Htotal : succeeds (add_features B ext px_x px_y [] (enumerate 1 contornos))).
  { apply add_features_total. apply Forall_forall. intros [i cnt] Hin.
    unfold kept in Hin. apply list_elem_of_filter in Hin as [Hval Hin]. simpl in *.
    apply list_elem_of_lookup_1 in Hin as [j Hj]. apply enumerate_lookup in Hj as [_ Hj].
    rewrite Forall_forall in Hareas. apply Hareas; [|exact Hval].
    eapply list_elem_of_lookup_2, Hj. }
  destruct (add_features B ext px_x px_y [] (enumerate 1 contornos)) as [feats|e] eqn:Hfeats;
    [|contradiction].
  simpl. eexists. split; [reflexivity|]. simpl.
  apply add_features_Ok in Hfeats as (fs & Hfs & Hall). simpl in Hfs. subst fs.
  assert (Hpairs : Forall2 (λ (cnt : Contour) f,
            (3 ≤ length cnt)%nat ∧
            ∃ i area_px, f = {| geometry := [map (pixel_to_geo ext px_x px_y) cnt];
                                attributes := [i; area_px] |})
            (map snd (kept (enumerate 1 contornos))) feats).
  { apply Forall2_fmap_l.
    eapply Forall2_impl;
      [apply (Forall2_with_left (λ ic : Z * Contour, (3 ≤ length ic.2)%nat)); [|exact Hall]|].
    - apply Forall_forall. intros ic Hin. unfold kept in Hin.
      apply list_elem_of_filter in Hin as [Hval _]. exact Hval.
    - intros [i cnt] f [Hval Hbuild]. simpl in *.
      apply build_feature_Ok in Hbuild as (area & _ & ->).
      split; [exact Hval | eauto]. }
  rewrite kept_enumerate_snd in Hpairs. split; [|exact Hpairs].
  symmetry. eapply Forall2_length, Hpairs.
Qed.

Lemma degenerate_contours_discarded_witness :
  ∃ vlayer,
    segment_olivos demo_backend (demo_world "/tmp/tmpq1x8") demo_ras demo_aoi
    = Ok (vlayer, demo_world_after "/tmp/tmpq1x8" demo_aoi) ∧
    length (features vlayer)
      = length (filter (λ cnt : Contour, (3 ≤ length cnt)%nat)
                  (findContours demo_backend demo_trees)) ∧
    Forall2 (λ (cnt : Contour) f,
               (3 ≤ length cnt)%nat ∧
               ∃ i area_px, f = {| geometry := [map (pixel_to_geo demo_extent 1 1) cnt];
                                   attributes := [i; area_px] |})
      (filter (λ cnt : Contour, (3 ≤ length cnt)%nat) (findContours demo_backend demo_trees))
      (features vlayer).
Proof.
  apply (degenerate_contours_discarded demo_backend (demo_world "/tmp/tmpq1x8")).
  - vm_compute. reflexivity.
  - set (contornos := findContours demo_backend demo_trees).
    vm_compute in contornos. subst contornos.
    constructor; [intros Hlen; simpl in Hlen; lia|].
    constructor; [intros _; vm_compute; exact I | constructor].
Defined.

(** ** Pixel sizes *)

Lemma SFdiv_opp_l (x y : spec_float) :
  SFdiv prec emax (SFopp x) y = SFopp (SFdiv prec emax x y).
Proof.
  destruct x as [sx|sx| |sx mx ex], y as [sy|sy| |sy my ey]; simpl;
    try reflexivity; try (destruct sx, sy; reflexivity).
  destruct (SFdiv_core_binary prec emax (Z.pos mx) ex (Z.pos my) ey) as [[mz ez] lz].
  unfold binary_round_aux.
  destruct (shr_fexp prec emax mz ez lz) as [mrs' e'].
  destruct (shr_fexp prec emax _ e' loc_Exact) as [mrs'' e''].
  destruct (shr_m mrs''); [destruct sx, sy; reflexivity | | reflexivity].
  destruct (e'' <=? emax - prec); destruct sx, sy; reflexivity.
Qed.

Lemma SFabs_opp (x : spec_float) : SFabs (SFopp x) = SFabs x.
Proof. destruct x; reflexivity. Qed.

Lemma SFabs_pos (x : spec_float) : SFltb (S754_zero false) x = true → SFabs x = x.
Proof.
  destruct x as [s|s| |s m e]; try destruct s; simpl; try discriminate; reflexivity.
Qed.

(** With a positive quotient, [abs(-a / b)] is [a / b]. *)
Lemma abs_opp_div (a b : float) :
  (0 <? a / b)%float = true → abs (- a / b) = (a / b)%float.
Proof.
  intros Hpos. apply Prim2SF_inj.
  rewrite ltb_spec, div_spec in Hpos.
  rewrite abs_spec, div_spec, opp_spec, div_spec.
  unfold SF64div in *. rewrite SFdiv_opp_l, SFabs_opp.
  apply SFabs_pos. exact Hpos.
Qed.

Lemma rasterize_aoi_values (B : Backend) (σ σ' : World) (aoi : VectorLayer)
    (ras : RasterLayer) mask_arr ext px_x px_y w h :
  _rasterize_aoi B σ aoi ras = Ok (mask_arr, ext, px_x, px_y, w, h, σ') →
  ext = extent ras ∧ px_x = gt1 (raster_gt ras) ∧ px_y = abs (gt5 (raster_gt ras)).
Proof.
  intros H. apply rasterize_aoi_Ok in H as (aoi_proj & aoi_file & σ1 & _ & _ & H).
  unfold rasterize_prepared in H.
  destruct (width ras =? 0); [discriminate|].
  destruct (height ras =? 0); [discriminate|].
  destruct (mem_Create (width ras) (height ras)) as [band|]; [|discriminate].
  destruct (ogr_Open σ1 aoi_file) as [layer|]; [|discriminate].
  destruct (rasterize_error B (raster_gt ras) band layer =? 0); [|discriminate].
  injection H as <- <- <- <- <- <- <-. auto.
Qed.

Lemma segment_mask_Ok (B : Backend) (σ σ' : World) (ras : RasterLayer) (aoi : VectorLayer)
    mask_trees ext px_x px_y :
  segment_mask B σ ras aoi = Ok (mask_trees, ext, px_x, px_y, σ') →
  ∃ mask_arr w h img_gray,
    _rasterize_aoi B σ aoi ras = Ok (mask_arr, ext, px_x, px_y, w, h, σ') ∧
    imread_grayscale σ' (raster_path ras) = Some img_gray ∧
    masked_composite mask_arr (threshold_binary img_gray (otsu_level B img_gray) 255)
    = Ok mask_trees.
Proof.
  unfold segment_mask. intros H.
  apply bind_Ok in H as ([[[[[[mask_arr ext1] px_x1] px_y1] w] h] σ1] & Hras & H).
  destruct (imread_grayscale σ1 (raster_path ras)) as [img|] eqn:Himg; [|discriminate].
  simpl in H. apply bind_Ok in H as (mt & Hcomp & [= <- <- <- <- <-]).
  exists mask_arr, w, h, img. auto.
Qed.

(** C5: in a run that returns, on a raster whose pixel height
    (y_max − y_min)/H is positive, the ring of every emitted polygon is its
    contour mapped vertex by vertex through the cell-centre transform
    geo_x = x_min + (col+0.5)·px_x, geo_y = y_max − (row+0.5)·px_y, with
    px_x = (x_max−x_min)/W and px_y = (y_max−y_min)/H. *)
Theorem vertices_cell_centre (B : Backend) (σ σ' : World) (ras : RasterLayer)
    (aoi : VectorLayer) (vlayer : VectorLayer) :
  segment_olivos B σ ras aoi = Ok (vlayer, σ') →
  (0 <? (yMaximum (extent ras) - yMinimum (extent ras)) / float_of_int (height ras))%float
    = true →
  ∃ mask_trees ext px_x px_y,
    segment_mask B σ ras aoi = Ok (mask_trees, ext, px_x, px_y, σ') ∧
    px_x = ((xMaximum (extent ras) - xMinimum (extent ras)) / float_of_int (width ras))%float ∧
    px_y = ((yMaximum (extent ras) - yMinimum (extent ras)) / float_of_int (height ras))%float ∧
    Forall2 (λ (cnt : Contour) f,
               geometry f
               = [map (forward_transform (extent ras) (width ras) (height ras)) cnt])
      (filter (λ cnt : Contour, (3 ≤ length cnt)%nat) (findContours B mask_trees))
      (features vlayer).
Proof.
  intros Hrun Hpos.
  apply segment_olivos_Ok in Hrun as (mask_trees & ext & px_x & px_y & Hmask & Hfeats).
  exists mask_trees, ext, px_x, px_y. split; [exact Hmask|].
  apply segment_mask_Ok in Hmask as (mask_arr & w & h & img & Hras & _ & _).
  apply rasterize_aoi_values in Hras as (-> & -> & ->).
  unfold raster_gt in *. cbn [gt1 gt5] in *. rewrite (abs_opp_div _ _ Hpos) in Hfeats |- *.
  split; [reflexivity|]. split; [reflexivity|].
  apply add_features_Ok in Hfeats as (fs & Hfs & Hall). simpl in Hfs. subst fs.
  rewrite <- kept_enumerate_snd with (start := 1). apply Forall2_fmap_l.
  eapply Forall2_impl; [exact Hall|].
  intros [i cnt] f Hbuild. simpl in *.
  apply build_feature_Ok in Hbuild as (area & _ & ->). reflexivity.
Qed.

Lemma vertices_cell_centre_witness :
  ∃ mask_trees ext px_x px_y,
    segment_mask demo_backend (demo_world "/tmp/tmpq1x8") demo_ras demo_aoi
    = Ok (mask_trees, ext, px_x, px_y, demo_world_after "/tmp/tmpq1x8" demo_aoi) ∧
    px_x = ((xMaximum (extent demo_ras) - xMinimum (extent demo_ras))
            / float_of_int (width demo_ras))%float ∧
    px_y = ((yMaximum (extent demo_ras) - yMinimum (extent demo_ras))
            / float_of_int (height demo_ras))%float ∧
    Forall2 (λ (cnt : Contour) f,
               geometry f
               = [map (forward_transform (extent demo_ras) (width demo_ras) (height demo_ras))
                    cnt])
      (filter (λ cnt : Contour, (3 ≤ length cnt)%nat) (findContours demo_backend mask_trees))
      [{| geometry := [[(500002.5, 6000003.5); (500002.5, 6000002.5);
                        (500003.5, 6000002.5); (500003.5, 6000003.5)]]%float;
          attributes := [2; 1] |}].
Proof.
  apply (vertices_cell_centre demo_backend (demo_world "/tmp/tmpq1x8") _ demo_ras demo_aoi
           {| v_crs := demo_crs; dataSourceUri := "Polygon?crs=EPSG:32719";
              fields := ["ID"; "Area_px"]%string;
              features := [{| geometry := [[(500002.5, 6000003.5); (500002.5, 6000002.5);
                                           (500003.5, 6000002.5); (500003.5, 6000003.5)]]%float;
                              attributes := [2; 1] |}] |}).
  - vm_compute. reflexivity.
  - vm_compute. reflexivity.
Defined.

(** ** An AOI that misses the raster *)

Lemma all_zero_composite (mask_arr otsu_full : ndarray) :
  all_zero mask_arr → all_zero (zip_with (zip_with composite_pixel) mask_arr otsu_full).
Proof.
  unfold all_zero. intros Hzero. revert otsu_full.
  induction Hzero as [|mrow mask_arr Hrow _ IH]; intros [|orow otsu_full]; simpl;
    try constructor; [|apply IH].
  clear IH. revert orow.
  induction Hrow as [|m mrow -> _ IH]; intros [|t orow]; simpl; constructor;
    [reflexivity | apply IH].
Qed.

Lemma demo_findContours_blank (img : ndarray) :
  all_zero img → findContours demo_backend img = [].
Proof.
  intros Hzero. simpl. unfold demo_findContours.
  replace (is_blank img) with true; [reflexivity|].
  symmetry. unfold is_blank. apply forallb_forall. intros row Hrow.
  apply forallb_forall. intros x Hx. apply Z.eqb_eq.
  unfold all_zero in Hzero. rewrite Forall_forall in Hzero.
  apply list_elem_of_In in Hrow, Hx. specialize (Hzero row Hrow).
  rewrite Forall_forall in Hzero. apply Hzero, Hx.
Qed.

(** C8: when the AOI mask is all zero (and the raster read has its shape),
    the compositor's image is all zero; a tracer that finds no contour in an
    image without foreground then returns none, and the layer returned has
    no polygon. *)
Theorem empty_mask_no_polygons (B : Backend) (σ σ' : World) (ras : RasterLayer)
    (aoi : VectorLayer) mask_arr ext px_x px_y w h img_gray :
  _rasterize_aoi B σ aoi ras = Ok (mask_arr, ext, px_x, px_y, w, h, σ') →
  all_zero mask_arr →
  imread_grayscale σ' (raster_path ras) = Some img_gray →
  row_lengths img_gray = row_lengths mask_arr →
  (∀ img, all_zero img → findContours B img = []) →
  ∃ mask_trees vlayer,
    masked_composite mask_arr (threshold_binary img_gray (otsu_level B img_gray) 255)
    = Ok mask_trees ∧
    all_zero mask_trees ∧
    findContours B mask_trees = [] ∧
    segment_olivos B σ ras aoi = Ok (vlayer, σ') ∧
    features vlayer = [].
Proof.
  intros Hras Hzero Himg Hshape Htracer.
  set (otsu_full := threshold_binary img_gray (otsu_level B img_gray) 255).
  assert (Hcomp : masked_composite mask_arr otsu_full
                  = Ok (zip_with (zip_with composite_pixel) mask_arr otsu_full)).
  { apply masked_composite_eq. subst otsu_full. unfold threshold_binary.
    rewrite row_lengths_map. congruence. }
  pose proof (all_zero_composite mask_arr otsu_full Hzero) as Hblank.
  pose proof (Htracer _ Hblank) as Hnone.
  do 2 eexists. split; [exact Hcomp|]. split; [exact Hblank|]. split; [exact Hnone|].
  rewrite segment_olivos_split. unfold segment_mask. rewrite Hras. simpl.
  rewrite Himg. simpl. fold otsu_full. rewrite Hcomp. simpl.
  unfold build_layer. rewrite Hnone. simpl. split; reflexivity.
Qed.

Lemma empty_mask_no_polygons_witness :
  ∃ mask_trees vlayer,
    masked_composite (replicate 5 (replicate 5 0))
      (threshold_binary demo_gray (otsu_level demo_backend demo_gray) 255)
    = Ok mask_trees ∧
    all_zero mask_trees ∧
    findContours demo_backend mask_trees = [] ∧
    segment_olivos demo_backend (demo_world "/tmp/tmpq1x8") demo_ras empty_aoi
    = Ok (vlayer, demo_world_after "/tmp/tmpq1x8" empty_aoi) ∧
    features vlayer = [].
Proof.
  eapply (empty_mask_no_polygons demo_backend (demo_world "/tmp/tmpq1x8") _ demo_ras empty_aoi).
  - vm_compute. reflexivity.
  - apply (all_zero_replicate 5 5).
  - vm_compute. reflexivity.
  - reflexivity.
  - exact demo_findContours_blank.
Defined.

(** ** Two runs *)

Lemma reproject_same_files (B : Backend) (σ1 σ2 : World) (aoi : VectorLayer)
    (ras : RasterLayer) :
  files σ1 = files σ2 →
  _reproject_aoi_to_raster B σ1 aoi ras = _reproject_aoi_to_raster B σ2 aoi ras.
Proof.
  intros Hfiles. unfold _reproject_aoi_to_raster, _load_layer_from_output, QgsVectorLayer_ogr.
  rewrite Hfiles. reflexivity.
Qed.

Lemma tmp_path_not_empty (dir : string) : String.eqb (dir ++ "/aoi_temp.shp") "" = false.
Proof. destruct dir; reflexivity. Qed.

(** What the rest of a run sees of the file system: the AOI layer OGR opens
    and the rasters OpenCV reads. *)
Lemma prepare_aoi_file_views (B : Backend) (σ1 σ2 : World) (aoi : VectorLayer) :
  files σ1 = files σ2 → fresh_tmp σ1 → fresh_tmp σ2 →
  match _prepare_aoi_file B σ1 aoi, _prepare_aoi_file B σ2 aoi with
  | Ok (f1, τ1), Ok (f2, τ2) =>
      ogr_Open τ1 f1 = ogr_Open τ2 f2 ∧
      ∀ path, imread_grayscale τ1 path = imread_grayscale τ2 path
  | Raise e1, Raise e2 => e1 = e2
  | _, _ => False
  end.
Proof.
  intros Hfiles Hfresh1 Hfresh2. unfold _prepare_aoi_file.
  destruct (endswith (lower (dataSourceUri aoi)) ".shp").
  - unfold ogr_Open, imread_grayscale. rewrite Hfiles. auto.
  - unfold savefeatures. destruct (savefeatures_ok B aoi); [|reflexivity].
    rewrite !tmp_path_not_empty. unfold path_exists, write_file. simpl.
    rewrite !lookup_insert_eq.
    rewrite !bool_decide_eq_true_2 by (eexists; reflexivity). simpl.
    unfold ogr_Open, imread_grayscale. simpl. rewrite !lookup_insert_eq.
    split; [reflexivity|]. intros path. rewrite !lookup_insert.
    unfold fresh_tmp in *.
    destruct (decide ((mkdtemp σ1 ++ "/aoi_temp.shp")%string = path)) as [Heq1|Hne1],
             (decide ((mkdtemp σ2 ++ "/aoi_temp.shp")%string = path)) as [Heq2|Hne2];
      try reflexivity.
    + rewrite <- Heq1, <- Hfiles, Hfresh1. reflexivity.
    + rewrite <- Heq2, Hfiles, Hfresh2. reflexivity.
    + rewrite Hfiles. reflexivity.
Qed.

Lemma rasterize_prepared_views (B : Backend) (τ1 τ2 : World) (f1 f2 : string)
    (ras : RasterLayer) :
  ogr_Open τ1 f1 = ogr_Open τ2 f2 →
  match rasterize_prepared B τ1 f1 ras, rasterize_prepared B τ2 f2 ras with
  | Ok (r1, υ1), Ok (r2, υ2) => r1 = r2 ∧ υ1 = τ1 ∧ υ2 = τ2
  | Raise e1, Raise e2 => e1 = e2
  | _, _ => False
  end.
Proof.
  intros Hopen. unfold rasterize_prepared. rewrite Hopen.
  destruct (width ras =? 0); [reflexivity|].
  destruct (height ras =? 0); [reflexivity|].
  destruct (mem_Create (width ras) (height ras)) as [band|]; [|reflexivity].
  destruct (ogr_Open τ2 f2) as [layer|]; [|reflexivity].
  destruct (rasterize_error B (raster_gt ras) band layer =? 0); [|reflexivity].
  auto.
Qed.

Lemma segment_mask_views (B : Backend) (σ1 σ2 : World) (ras : RasterLayer)
    (aoi : VectorLayer) :
  files σ1 = files σ2 → fresh_tmp σ1 → fresh_tmp σ2 →
  match segment_mask B σ1 ras aoi, segment_mask B σ2 ras aoi with
  | Ok (r1, _), Ok (r2, _) => r1 = r2
  | Raise e1, Raise e2 => e1 = e2
  | _, _ => False
  end.
Proof.
  intros Hfiles Hfresh1 Hfresh2. unfold segment_mask.
  rewrite !rasterize_aoi_unfold, (reproject_same_files B σ1 σ2 aoi ras Hfiles).
  destruct (_reproject_aoi_to_raster B σ2 aoi ras) as [aoi_proj|e]; simpl; [|reflexivity].
  pose proof (prepare_aoi_file_views B σ1 σ2 aoi_proj Hfiles Hfresh1 Hfresh2) as Hprep.
  destruct (_prepare_aoi_file B σ1 aoi_proj) as [[f1 τ1]|e1],
           (_prepare_aoi_file B σ2 aoi_proj) as [[f2 τ2]|e2];
    simpl; try contradiction; [|exact Hprep].
  destruct Hprep as [Hopen Hread].
  pose proof (rasterize_prepared_views B τ1 τ2 f1 f2 ras Hopen) as Hras.
  destruct (rasterize_prepared B τ1 f1 ras)
    as [[[[[[[mask1 ext1] px_x1] px_y1] w1] h1] υ1]|e1],
           (rasterize_prepared B τ2 f2 ras)
    as [[[[[[[mask2 ext2] px_x2] px_y2] w2] h2] υ2]|e2];
    simpl; try contradiction; [|exact Hras].
  destruct Hras as ([= -> -> -> -> -> ->] & -> & ->).
  rewrite Hread.
  destruct (imread_grayscale τ2 (raster_path ras)) as [img|]; simpl; [|reflexivity].
  destruct (masked_composite mask2 _) as [mask_trees|e]; reflexivity.
Qed.

(** C9: two runs on the same raster, AOI and files return the same thing,
    the same layer (IDs, areas and vertices in the same order) or the same
    error, whatever temporary directory each of them is given. *)
Theorem segment_olivos_deterministic (B : Backend) (σ1 σ2 : World) (ras : RasterLayer)
    (aoi : VectorLayer) :
  files σ1 = files σ2 → fresh_tmp σ1 → fresh_tmp σ2 →
  outcome (segment_olivos B σ1 ras aoi) = outcome (segment_olivos B σ2 ras aoi).
Proof.
  intros Hfiles Hfresh1 Hfresh2. rewrite !segment_olivos_split.
  pose proof (segment_mask_views B σ1 σ2 ras aoi Hfiles Hfresh1 Hfresh2) as Hmask.
  destruct (segment_mask B σ1 ras aoi) as [[[[[mt1 ext1] px_x1] px_y1] τ1]|e1],
           (segment_mask B σ2 ras aoi) as [[[[[mt2 ext2] px_x2] px_y2] τ2]|e2];
    simpl; try contradiction; [|congruence].
  injection Hmask as -> -> -> ->.
  destruct (build_layer B ras ext2 px_x2 px_y2 mt2); reflexivity.
Qed.

Lemma segment_olivos_deterministic_witness :
  outcome (segment_olivos demo_backend (demo_world "/tmp/tmpq1x8") demo_ras demo_aoi)
  = outcome (segment_olivos demo_backend (demo_world "/tmp/tmp_r7k2c") demo_ras demo_aoi).
Proof.
  apply segment_olivos_deterministic; reflexivity.
Defined.

(** * Further properties of the module *)

(** ** Preparing the AOI file *)

Lemma lower_app (a b : string) : lower (a ++ b) = (lower a ++ lower b)%string.
Proof. induction a as [|c a IH]; simpl; [reflexivity | rewrite IH; reflexivity]. Qed.

Lemma string_length_app (a b : string) :
  String.length (a ++ b) = (String.length a + String.length b)%nat.
Proof. induction a as [|c a IH]; simpl; [reflexivity | rewrite IH; reflexivity]. Qed.

Lemma substring_all (b : string) : substring 0 (String.length b) b = b.
Proof. induction b as [|c b IH]; simpl; [reflexivity | rewrite IH; reflexivity]. Qed.

Lemma substring_app_r (a b : string) :
  substring (String.length a) (String.length b) (a ++ b) = b.
Proof. induction a as [|c a IH]; simpl; [apply substring_all | exact IH]. Qed.

Lemma endswith_app (a b : string) : endswith (a ++ b) b = true.
Proof.
  unfold endswith. rewrite string_length_app.
  replace (String.length a + String.length b - String.length b)%nat
    with (String.length a) by lia.
  rewrite substring_app_r, String.eqb_refl, andb_true_r.
  apply Nat.leb_le. lia.
Qed.

(** X1: an AOI whose source ends in ".shp", in any letter case, is handed to OGR
    as it is: its source is returned and nothing is written. *)
Theorem prepare_aoi_file_shapefile (B : Backend) (σ : World) (aoi : VectorLayer)
    (stem ext : string) :
  dataSourceUri aoi = (stem ++ ext)%string → lower ext = ".shp"%string →
  _prepare_aoi_file B σ aoi = Ok (dataSourceUri aoi, σ).
Proof.
  intros Huri Hext. unfold _prepare_aoi_file.
  rewrite Huri, lower_app, Hext, endswith_app. reflexivity.
Qed.

Lemma prepare_aoi_file_shapefile_witness :
  _prepare_aoi_file demo_backend (demo_world "/tmp/tmpq1x8") shp_aoi
  = Ok (dataSourceUri shp_aoi, demo_world "/tmp/tmpq1x8").
Proof.
  apply (prepare_aoi_file_shapefile _ _ shp_aoi "/data/PARCELA" ".SHP"); reflexivity.
Defined.



(** ** Reprojection *)

(** X3: when the AOI is already in the raster's CRS the reprojection algorithm
    is never consulted: the run returns the same whatever it would answer. *)
Theorem same_crs_skips_reprojection (B : Backend) (f : VectorLayer → string → ProcOutput)
    (σ : World) (ras : RasterLayer) (aoi : VectorLayer) :
  v_crs aoi = r_crs ras →
  segment_olivos (with_reprojectlayer B f) σ ras aoi = segment_olivos B σ ras aoi.
Proof.
  intros Hcrs. unfold segment_olivos, _rasterize_aoi, _reproject_aoi_to_raster.
  destruct (decide (v_crs aoi = r_crs ras)); [reflexivity | contradiction].
Qed.

Lemma same_crs_skips_reprojection_witness :
  segment_olivos (with_reprojectlayer demo_backend (λ _ _, OutOther))
    (demo_world "/tmp/tmpq1x8") demo_ras demo_aoi
  = segment_olivos demo_backend (demo_world "/tmp/tmpq1x8") demo_ras demo_aoi.
Proof.
  apply same_crs_skips_reprojection. reflexivity.
Defined.

Lemma segment_olivos_reproject_error (B : Backend) (σ : World) (ras : RasterLayer)
    (aoi : VectorLayer) (e : exn) :
  _reproject_aoi_to_raster B σ aoi ras = Raise e → segment_olivos B σ ras aoi = Raise e.
Proof.
  intros H. unfold segment_olivos, _rasterize_aoi. rewrite H. reflexivity.
Qed.

(** X4: with an AOI in another CRS, a reprojection that returns neither a layer
    nor a path, or a path that does not load as a vector layer, ends the run
    with the RuntimeError of [_load_layer_from_output]. *)
Theorem reprojection_output_errors (B : Backend) (σ : World) (ras : RasterLayer)
    (aoi : VectorLayer) :
  v_crs aoi ≠ r_crs ras →
  (reprojectlayer B aoi (authid (r_crs ras)) = OutOther →
     segment_olivos B σ ras aoi
     = Raise (RuntimeError "Unexpected type when loading reprojected layer")) ∧
  (∀ path, reprojectlayer B aoi (authid (r_crs ras)) = OutStr path →
     ogr_Open σ path = None →
     segment_olivos B σ ras aoi
     = Raise (RuntimeError ("Could not load layer from: " ++ path))).
Proof.
  intros Hcrs. split.
  - intros Hout. apply segment_olivos_reproject_error.
    unfold _reproject_aoi_to_raster. rewrite Hout.
    destruct (decide (v_crs aoi = r_crs ras)); [contradiction | reflexivity].
  - intros path Hout Hopen. apply segment_olivos_reproject_error.
    unfold _reproject_aoi_to_raster. rewrite Hout.
    destruct (decide (v_crs aoi = r_crs ras)); [contradiction|].
    unfold _load_layer_from_output, QgsVectorLayer_ogr. unfold ogr_Open in Hopen.
    destruct (files σ !! path) as [[c fs|gray]|]; [discriminate | reflexivity | reflexivity].
Qed.

Lemma reprojection_output_errors_witness :
  segment_olivos (with_reprojectlayer demo_backend (λ _ _, OutStr "memory:"))
    (demo_world "/tmp/tmpq1x8") demo_ras wgs84_aoi
  = Raise (RuntimeError "Could not load layer from: memory:").
Proof.
  eapply (reprojection_output_errors
            (with_reprojectlayer demo_backend (λ _ _, OutStr "memory:"))
            (demo_world "/tmp/tmpq1x8") demo_ras wgs84_aoi).
  - discriminate.
  - reflexivity.
  - reflexivity.
Defined.

(** ** Shapes and errors in the pipeline *)

Lemma masked_composite_mismatch (mask_arr otsu_full : ndarray) :
  row_lengths mask_arr ≠ row_lengths otsu_full →
  masked_composite mask_arr otsu_full = Raise IndexError.
Proof.
  intros Hshape. unfold masked_composite, getitem_mask.
  replace (same_shape otsu_full (eq_scalar mask_arr 1)) with false; [reflexivity|].
  symmetry. unfold same_shape, eq_scalar. apply bool_decide_eq_false.
  rewrite row_lengths_map. congruence.
Qed.

(** X5: the compositor returns exactly when the mask and the thresholded image
    have one shape; otherwise numpy's IndexError is its only failure. *)
Theorem masked_composite_shapes (mask_arr otsu_full : ndarray) :
  (succeeds (masked_composite mask_arr otsu_full)
   ↔ row_lengths mask_arr = row_lengths otsu_full) ∧
  (¬ succeeds (masked_composite mask_arr otsu_full) →
   masked_composite mask_arr otsu_full = Raise IndexError).
Proof.
  destruct (decide (row_lengths mask_arr = row_lengths otsu_full)) as [Heq|Hne].
  - rewrite (masked_composite_eq _ _ Heq). simpl. split; [tauto | intros []; exact I].
  - rewrite (masked_composite_mismatch _ _ Hne). simpl. split; [tauto | reflexivity].
Qed.

(** X6: once the AOI is rasterized, a raster that OpenCV cannot read ends the
    run with RuntimeError, and one that is read with another shape than the
    mask ends it with IndexError. *)
Theorem segment_olivos_raster_errors (B : Backend) (σ σ' : World) (ras : RasterLayer)
    (aoi : VectorLayer) mask_arr ext px_x px_y w h :
  _rasterize_aoi B σ aoi ras = Ok (mask_arr, ext, px_x, px_y, w, h, σ') →
  (imread_grayscale σ' (raster_path ras) = None →
     segment_olivos B σ ras aoi
     = Raise (RuntimeError "OpenCV could not read the raster (grayscale)")) ∧
  (∀ img_gray, imread_grayscale σ' (raster_path ras) = Some img_gray →
     row_lengths img_gray ≠ row_lengths mask_arr →
     segment_olivos B σ ras aoi = Raise IndexError).
Proof.
  intros Hras. rewrite segment_olivos_split. unfold segment_mask. rewrite Hras. simpl. split.
  - intros ->. reflexivity.
  - intros img Himg Hshape. rewrite Himg. simpl.
    rewrite masked_composite_mismatch; [reflexivity|].
    unfold threshold_binary. rewrite row_lengths_map. congruence.
Qed.

Lemma segment_olivos_raster_errors_witness :
  segment_olivos demo_backend
    {| files := ∅; next_tmpdir := "/tmp/tmpq1x8" |} demo_ras demo_aoi
  = Raise (RuntimeError "OpenCV could not read the raster (grayscale)").
Proof.
  eapply (segment_olivos_raster_errors demo_backend
            {| files := ∅; next_tmpdir := "/tmp/tmpq1x8" |}).
  - vm_compute. reflexivity.
  - reflexivity.
Defined.

(** ** Pixel sizes and canopy pixels *)

Lemma abs_not_negative (x : float) : (abs x <? 0)%float = false.
Proof.
  rewrite ltb_spec, abs_spec.
  destruct (Prim2SF x) as [s|s| |s m e]; reflexivity.
Qed.

(** X7: the pixel height [_rasterize_aoi] returns is never negative, whatever
    the order of the raster's y bounds. *)
Theorem rasterize_aoi_px_y_not_negative (B : Backend) (σ σ' : World) (aoi : VectorLayer)
    (ras : RasterLayer) mask_arr ext px_x px_y w h :
  _rasterize_aoi B σ aoi ras = Ok (mask_arr, ext, px_x, px_y, w, h, σ') →
  (px_y <? 0)%float = false.
Proof.
  intros H. apply rasterize_aoi_values in H as (_ & _ & ->). apply abs_not_negative.
Qed.

Lemma rasterize_aoi_px_y_not_negative_witness : (1 <? 0)%float = false.
Proof.
  eapply (rasterize_aoi_px_y_not_negative demo_backend (demo_world "/tmp/tmpq1x8") _
            demo_aoi flipped_ras).
  vm_compute. reflexivity.
Defined.

Lemma pixel_map {A B : Type} (f : A → B) (a : list (list A)) (row col : nat) :
  pixel (map (map f) a) row col = f <$> pixel a row col.
Proof.
  unfold pixel. change (map (map f) a) with (map f <$> a). rewrite list_lookup_fmap.
  destruct (a !! row) as [r|]; simpl; [|reflexivity].
  change (map f r) with (f <$> r). apply list_lookup_fmap.
Qed.

(** X8: in a run, a pixel of the image handed to the contour tracer is 255 when
    it lies in the AOI mask and its grey level does not exceed the Otsu
    level, and 0 otherwise: canopy is what is dark inside the AOI. *)
Theorem canopy_is_dark_inside_aoi (B : Backend) (σ σ' : World) (ras : RasterLayer)
    (aoi : VectorLayer) mask_trees ext px_x px_y :
  segment_mask B σ ras aoi = Ok (mask_trees, ext, px_x, px_y, σ') →
  ∃ mask_arr w h img_gray,
    _rasterize_aoi B σ aoi ras = Ok (mask_arr, ext, px_x, px_y, w, h, σ') ∧
    imread_grayscale σ' (raster_path ras) = Some img_gray ∧
    row_lengths mask_trees = row_lengths mask_arr ∧
    ∀ row col m g,
      pixel mask_arr row col = Some m → pixel img_gray row col = Some g →
      pixel mask_trees row col
      = Some (if ((m =? 1) && (g <=? otsu_level B img_gray))%bool then 255 else 0).
Proof.
  intros H. apply segment_mask_Ok in H as (mask_arr & w & h & img & Hras & Himg & Hcomp).
  exists mask_arr, w, h, img. split; [exact Hras|]. split; [exact Himg|].
  set (otsu_full := threshold_binary img (otsu_level B img) 255) in *.
  destruct (decide (row_lengths mask_arr = row_lengths otsu_full)) as [Hshape|Hshape].
  - rewrite (masked_composite_eq _ _ Hshape) in Hcomp. injection Hcomp as <-. split.
    + apply row_lengths_zip_with, Hshape.
    + intros row col m g Hm Hg. rewrite pixel_zip_with, Hm. simpl.
      subst otsu_full. unfold threshold_binary. rewrite pixel_map, Hg. simpl.
      unfold composite_pixel. f_equal.
      destruct (Z.ltb_spec (otsu_level B img) g), (Z.leb_spec g (otsu_level B img));
        try lia; destruct (m =? 1); reflexivity.
  - rewrite (masked_composite_mismatch _ _ Hshape) in Hcomp. discriminate.
Qed.

Lemma canopy_is_dark_inside_aoi_witness :
  ∃ mask_arr w h img_gray,
    _rasterize_aoi demo_backend (demo_world "/tmp/tmpq1x8") demo_aoi demo_ras
    = Ok (mask_arr, demo_extent, 1%float, 1%float, w, h,
          demo_world_after "/tmp/tmpq1x8" demo_aoi) ∧
    imread_grayscale (demo_world_after "/tmp/tmpq1x8" demo_aoi) (raster_path demo_ras)
    = Some img_gray ∧
    row_lengths demo_trees = row_lengths mask_arr ∧
    ∀ row col m g,
      pixel mask_arr row col = Some m → pixel img_gray row col = Some g →
      pixel demo_trees row col
      = Some (if ((m =? 1) && (g <=? otsu_level demo_backend img_gray))%bool
              then 255 else 0).
Proof.
  apply (canopy_is_dark_inside_aoi demo_backend (demo_world "/tmp/tmpq1x8") _ demo_ras demo_aoi).
  vm_compute. reflexivity.
Defined.

(** ** The file system after a run *)


Lemma rasterize_prepared_world (B : Backend) (σ : World) (aoi_file : string)
    (ras : RasterLayer) r σ' :
  rasterize_prepared B σ aoi_file ras = Ok (r, σ') → σ' = σ.
Proof.
  unfold rasterize_prepared.
  destruct (width ras =? 0); [discriminate|].
  destruct (height ras =? 0); [discriminate|].
  destruct (mem_Create (width ras) (height ras)) as [band|]; [|discriminate].
  destruct (ogr_Open σ aoi_file) as [layer|]; [|discriminate].
  destruct (rasterize_error B (raster_gt ras) band layer =? 0); [|discriminate].
  intros [= _ <-]. reflexivity.
Qed.



(** ** The emitted polygons *)

Lemma kept_enumerate_ids (l : list Contour) (start : Z) :
  StronglySorted Z.lt (map fst (kept (enumerate start l))) ∧
  Forall (λ i, start ≤ i < start + Z.of_nat (length l)) (map fst (kept (enumerate start l))).
Proof.
  revert start. induction l as [|cnt l IH]; intros start; [split; constructor|].
  cbn [enumerate length]. destruct (IH (start + 1)) as [Hsorted Hrange].
  assert (Hrange' : Forall (λ i, start ≤ i < start + Z.of_nat (S (length l)))
                      (map fst (kept (enumerate (start + 1) l)))).
  { eapply Forall_impl; [exact Hrange|]. simpl. intros i Hi. lia. }
  destruct (decide (3 ≤ length cnt)%nat) as [Hval|Hdeg].
  - rewrite kept_cons_valid by exact Hval. simpl map. split.
    + constructor; [exact Hsorted|]. eapply Forall_impl; [exact Hrange|].
      simpl. intros i Hi. lia.
    + constructor; [lia | exact Hrange'].
  - rewrite kept_cons_degenerate by lia. split; assumption.
Qed.

(** X10: the IDs of the polygons of a layer increase strictly along the layer, so
    no two polygons share an ID, and each lies between 1 and the number of
    traced contours. *)
Theorem segment_olivos_ids_increase (B : Backend) (σ σ' : World) (ras : RasterLayer)
    (aoi : VectorLayer) (vlayer : VectorLayer) :
  segment_olivos B σ ras aoi = Ok (vlayer, σ') →
  ∃ mask_trees ext px_x px_y ids,
    segment_mask B σ ras aoi = Ok (mask_trees, ext, px_x, px_y, σ') ∧
    map feature_id (features vlayer) = map Some ids ∧
    StronglySorted Z.lt ids ∧ NoDup ids ∧
    Forall (λ i, 1 ≤ i ≤ Z.of_nat (length (findContours B mask_trees))) ids.
Proof.
  intros H. apply segment_olivos_Ok in H as (mask_trees & ext & px_x & px_y & Hmask & Hfeats).
  apply add_features_Ok in Hfeats as (fs & Hfs & Hall). simpl in Hfs. subst fs.
  exists mask_trees, ext, px_x, px_y, (map fst (kept (enumerate 1 (findContours B mask_trees)))).
  destruct (kept_enumerate_ids (findContours B mask_trees) 1) as [Hsorted Hrange].
  split; [exact Hmask|]. split.
  - rewrite (build_feature_id _ _ _ _ _ _ Hall), map_map. reflexivity.
  - split; [exact Hsorted|]. split.
    + clear Hrange. induction Hsorted as [|i ids _ IH Hlt]; constructor; [|exact IH].
      intros Hin. rewrite Forall_forall in Hlt. specialize (Hlt i Hin). lia.
    + eapply Forall_impl; [exact Hrange|]. simpl. intros i Hi. lia.
Qed.

Lemma segment_olivos_ids_increase_witness :
  ∃ mask_trees ext px_x px_y ids,
    segment_mask demo_backend (demo_world "/tmp/tmpq1x8") demo_ras demo_aoi
    = Ok (mask_trees, ext, px_x, px_y, demo_world_after "/tmp/tmpq1x8" demo_aoi) ∧
    [Some 2] = map Some ids ∧
    StronglySorted Z.lt ids ∧ NoDup ids ∧
    Forall (λ i, 1 ≤ i ≤ Z.of_nat (length (findContours demo_backend mask_trees))) ids.
Proof.
  eapply (segment_olivos_ids_increase demo_backend (demo_world "/tmp/tmpq1x8") _
            demo_ras demo_aoi
            {| v_crs := demo_crs; dataSourceUri := "Polygon?crs=EPSG:32719";
               fields := ["ID"; "Area_px"]%string;
               features := [{| geometry := [[(500002.5, 6000003.5); (500002.5, 6000002.5);
                                            (500003.5, 6000002.5); (500003.5, 6000003.5)]]%float;
                               attributes := [2; 1] |}] |}).
  vm_compute. reflexivity.
Defined.




(** ** The path of the raster *)

Lemma split_head_spec (sep : ascii) (s : string) :
  contains sep (split_head sep s) = false ∧
  ∃ rest, s = (split_head sep s ++ rest)%string ∧
          (rest = ""%string ∨ ∃ r, rest = String sep r).
Proof.
  induction s as [|c s (Hno & rest & Hs & Hrest)]; simpl.
  - split; [reflexivity|]. exists ""%string. auto.
  - destruct (Ascii.eqb_spec c sep) as [->|Hne]; simpl.
    + split; [reflexivity|]. exists (String sep s). eauto.
    + split.
      * rewrite Hno, orb_false_r. apply Ascii.eqb_neq, Hne.
      * exists rest. split; [rewrite Hs at 1; reflexivity | exact Hrest].
Qed.

Lemma split_head_same (sep : ascii) (s : string) :
  split_head sep s = s ↔ contains sep s = false.
Proof.
  induction s as [|c s IH]; simpl; [tauto|].
  destruct (Ascii.eqb c sep); simpl; [split; discriminate|].
  rewrite <- IH. split; [intros [= H]; exact H | intros ->; reflexivity].
Qed.

Lemma contains_app_l (c : ascii) (a b : string) :
  contains c (a ++ b) = false → contains c a = false.
Proof.
  induction a as [|c' a IH]; simpl; [reflexivity|].
  intros H. apply orb_false_iff in H as [-> H]. simpl. apply IH, H.
Qed.

Lemma string_app_assoc (a b c : string) :
  String.append (String.append a b) c = String.append a (String.append b c).
Proof.
  induction a as [|x a IH]; [reflexivity|].
  change (String x (String.append (String.append a b) c)
          = String x (String.append a (String.append b c))).
  f_equal. exact IH.
Qed.

(** X12: the path handed to OpenCV by [segment_olivos] is the source of the layer
    up to its first "|" or "?": it holds neither, the source continues with
    one of them or ends there, and a source without them is the path. *)
Theorem raster_path_prefix (ras : RasterLayer) :
  contains "|" (raster_path ras) = false ∧
  contains "?" (raster_path ras) = false ∧
  (∃ rest, source ras = (raster_path ras ++ rest)%string ∧
           (rest = ""%string ∨ ∃ r, rest = String "|" r ∨ rest = String "?" r)) ∧
  (contains "|" (source ras) = false → contains "?" (source ras) = false →
   raster_path ras = source ras).
Proof.
  unfold raster_path.
  destruct (split_head_spec "|" (source ras)) as (Hbar & r1 & Hsrc & Hr1).
  destruct (split_head_spec "?" (split_head "|" (source ras))) as (Hq & r2 & Hp & Hr2).
  split; [|split; [exact Hq|split]].
  - apply (contains_app_l _ _ r2). rewrite <- Hp. exact Hbar.
  - exists (r2 ++ r1)%string. split.
    + rewrite Hsrc at 1. rewrite Hp at 1. apply string_app_assoc.
    + destruct Hr2 as [->|[r ->]]; simpl.
      * destruct Hr1 as [->|[r ->]]; eauto.
      * right. eauto.
  - intros Hnobar Hnoq. apply split_head_same in Hnobar. rewrite Hnobar.
    apply split_head_same, Hnoq.
Qed.

(** X13: sampling reads the source up to its first "|" only: the dialog and the
    segmentation open the same file exactly when no "?" comes before the
    first "|" of the source. *)
Theorem sample_path_agrees (ras : RasterLayer) :
  raster_path ras = sample_path ras ↔ contains "?" (sample_path ras) = false.
Proof. unfold raster_path, sample_path. apply split_head_same. Qed.

(** ** The combo boxes *)

Lemma fill_loop_items (layers : list MapLayer) (aoi ras : ComboBox) :
  fill_loop layers aoi ras
  = ({| items := items aoi ++ combo_items offered_aoi layers;
        currentIndex := currentIndex aoi |},
     {| items := items ras ++ combo_items offered_raster layers;
        currentIndex := currentIndex ras |}).
Proof.
  unfold combo_items. revert aoi ras.
  induction layers as [|lyr rest IH]; intros [ia ca] [ir cr]; simpl.
  - rewrite !app_nil_r. reflexivity.
  - destruct lyr as [name src gt layer|name layer|name]; simpl.
    + destruct (bool_decide (gt = PolygonGeometry) && endswith (lower src) ".shp")%bool;
        rewrite IH; simpl; [rewrite <- app_assoc|]; reflexivity.
    + destruct (endswith (lower (source layer)) ".tif"
                || endswith (lower (source layer)) ".tiff")%bool;
        rewrite IH; simpl; [rewrite <- app_assoc|]; reflexivity.
    + apply IH.
Qed.

(** X14: after a refill the AOI box offers the polygon layers whose source ends
    in ".shp" and the raster box the rasters whose source ends in ".tif" or
    ".tiff", in project order and whatever the boxes held before; the first
    layer offered is the one selected. *)
Theorem fill_combos_offers (project : list MapLayer) (d : Dialog) :
  items (comboAOI (_fill_combos project d)) = combo_items offered_aoi project ∧
  items (comboRaster (_fill_combos project d)) = combo_items offered_raster project ∧
  currentData (comboAOI (_fill_combos project d))
    = head (List.filter offered_aoi project) ∧
  currentData (comboRaster (_fill_combos project d))
    = head (List.filter offered_raster project).
Proof.
  unfold _fill_combos. rewrite fill_loop_items. simpl.
  unfold currentData, combo_items. simpl.
  repeat split; try reflexivity.
  - destruct (List.filter offered_aoi project); reflexivity.
  - destruct (List.filter offered_raster project); reflexivity.
Qed.

Lemma offered_raster_listed (project : list MapLayer) (i : nat) (lyr : MapLayer) :
  project !! i = Some lyr → offered_raster lyr = true →
  (layer_name lyr, lyr) ∈ combo_items offered_raster project.
Proof.
  intros Hi Hoff. unfold combo_items.
  apply (list_elem_of_fmap_2 (λ lyr, (layer_name lyr, lyr))).
  apply list_elem_of_In, filter_In. split; [|exact Hoff].
  apply list_elem_of_In. eapply list_elem_of_lookup_2, Hi.
Qed.

(** X15: a raster that is removed from the project stays in the raster box: the
    boxes are refilled on [layerWillBeRemoved], while the layer is still in
    the project, and "Start sampling" stays enabled for it. *)
Theorem removed_raster_still_offered (project : list MapLayer) (d : Dialog) (i : nat)
    (lyr : MapLayer) :
  project !! i = Some lyr → offered_raster lyr = true →
  let '(project', d') := removeMapLayer i project d in
  project' = delete i project ∧
  (layer_name lyr, lyr) ∈ items (comboRaster d') ∧
  btnIniciarMuestras d' = true.
Proof.
  intros Hi Hoff.
  unfold removeMapLayer, _on_layers_changed, _toggle_sample_button, _fill_combos.
  pose proof (offered_raster_listed project i lyr Hi Hoff) as Hin.
  rewrite fill_loop_items. simpl. split; [reflexivity|]. split; [exact Hin|].
  unfold count. simpl. apply Nat.ltb_lt.
  destruct (combo_items offered_raster project); [inversion Hin | simpl; lia].
Qed.

Lemma removed_raster_still_offered_witness :
  let '(project', d') := removeMapLayer 0 [demo_raster_layer] (new_dialog [demo_raster_layer]) in
  project' = [] ∧
  (layer_name demo_raster_layer, demo_raster_layer) ∈ items (comboRaster d') ∧
  btnIniciarMuestras d' = true.
Proof.
  apply (removed_raster_still_offered [demo_raster_layer] (new_dialog [demo_raster_layer]) 0
           demo_raster_layer); reflexivity.
Defined.

(** X16: a change of the project's layers while samples are being collected
    enables "Start sampling" again as soon as a raster is offered, with
    "Finish sampling" still enabled and the picker still on the canvas. *)
Theorem layers_changed_while_sampling (project : list MapLayer) (d : Dialog) (i : nat)
    (lyr : MapLayer) :
  project !! i = Some lyr → offered_raster lyr = true →
  let d1 := _start_sampling d in
  let d2 := _on_layers_changed project d1 in
  btnIniciarMuestras d1 = false ∧
  btnIniciarMuestras d2 = true ∧ btnTerminarMuestras d2 = true ∧
  canvasTool d2 = true ∧ pixelTool d2 = Some [] ∧ muestras d2 = [].
Proof.
  intros Hi Hoff. cbv zeta.
  pose proof (offered_raster_listed project i lyr Hi Hoff) as Hin.
  unfold _on_layers_changed, _toggle_sample_button, _fill_combos.
  rewrite fill_loop_items. simpl.
  split; [reflexivity|]. split; [|repeat split; reflexivity].
  unfold count. simpl. apply Nat.ltb_lt.
  destruct (combo_items offered_raster project); [inversion Hin | simpl; lia].
Qed.

Lemma layers_changed_while_sampling_witness :
  let d1 := _start_sampling (new_dialog demo_project) in
  let d2 := _on_layers_changed demo_project d1 in
  btnIniciarMuestras d1 = false ∧
  btnIniciarMuestras d2 = true ∧ btnTerminarMuestras d2 = true ∧
  canvasTool d2 = true ∧ pixelTool d2 = Some [] ∧ muestras d2 = [].
Proof.
  apply (layers_changed_while_sampling demo_project (new_dialog demo_project) 2
           demo_raster_layer); reflexivity.
Defined.

(** ** Collecting samples *)



Lemma handle_pixel_click_count (G : Desktop) (d d' : Dialog) (x_geo y_geo : float) :
  _handle_pixel_click G d x_geo y_geo = Ok d' →
  btnIniciarMuestras d' = btnIniciarMuestras d ∧
  btnTerminarMuestras d' = btnTerminarMuestras d ∧
  pixelTool d' = pixelTool d ∧ canvasTool d' = canvasTool d ∧
  ((muestras d' = muestras d ∧ labelEstado d' = labelEstado d) ∨
   (∃ s, muestras d' = muestras d ++ [s] ∧
         labelEstado d' = ("Samples collected: " ++ pretty (length (muestras d')))%string)).
Proof.
  unfold _handle_pixel_click.
  destruct (currentData (comboRaster d)) as [[name src gt lv|name layer_ras|name]|];
    try (intros [= <-]; repeat split; left; split; reflexivity).
  destruct (if decide (destinationCrs G ≠ r_crs layer_ras)
            then transform G (destinationCrs G) (r_crs layer_ras) x_geo y_geo
            else (x_geo, y_geo)) as [x' y'].
  destruct (imread_color G (sample_path layer_ras)) as [img|];
    [|intros [= <-]; repeat split; left; split; reflexivity].
  intros H.
  apply bind_Ok in H as (cell_w & _ & H). apply bind_Ok in H as (qx & _ & H).
  apply bind_Ok in H as (col & _ & H). apply bind_Ok in H as (cell_h & _ & H).
  apply bind_Ok in H as (qy & _ & H). apply bind_Ok in H as (row & _ & H).
  destruct ((0 <=? row) && (row <? shape0 img) && (0 <=? col) && (col <? shape1 img))%bool;
    [|injection H as <-; repeat split; left; split; reflexivity].
  destruct (pixel img (Z.to_nat row) (Z.to_nat col)) as [[[b g] r]|]; [|discriminate].
  injection H as <-. repeat split. right. eexists. split; reflexivity.
Qed.

Lemma clicks_invariant (G : Desktop) (points : list PointXY) :
  ∀ (d d' : Dialog) (band : list PointXY),
    pixelTool d = Some band →
    labelEstado d = ("Samples collected: " ++ pretty (length (muestras d)))%string →
    clicks G d points = Ok d' →
    pixelTool d' = Some (band ++ points) ∧
    (length (muestras d') ≤ length (muestras d) + length points)%nat ∧
    muestras d `prefix_of` muestras d' ∧
    labelEstado d' = ("Samples collected: " ++ pretty (length (muestras d')))%string ∧
    btnIniciarMuestras d' = btnIniciarMuestras d ∧
    btnTerminarMuestras d' = btnTerminarMuestras d ∧
    canvasTool d' = canvasTool d.
Proof.
  induction points as [|[x y] rest IH]; intros d d' band Htool Hlabel; simpl.
  - intros [= <-]. rewrite app_nil_r. repeat split; try assumption; [lia | reflexivity].
  - intros H. apply bind_Ok in H as (d1 & Hclick & H).
    unfold canvasPressEvent in Hclick.
    apply bind_Ok in Hclick as (d0 & Hhandle & [= <-]).
    apply handle_pixel_click_count in Hhandle as (Hb1 & Hb2 & Htool0 & Hcanvas & Hcases).
    rewrite Htool in Htool0.
    eapply (IH _ _ (band ++ [(x, y)])) in H.
    + destruct H as (Htool' & Hlen & Hpre & Hlabel' & Hi & Ht & Hc). simpl in *.
      rewrite <- app_assoc in Htool'. split; [exact Htool'|].
      destruct Hcases as [[Hm _]|(s & Hm & _)]; rewrite Hm in *.
      * repeat split; try assumption; try congruence. lia.
      * rewrite length_app in Hlen. simpl in Hlen.
        repeat split; try assumption; try congruence; [lia|].
        etrans; [|exact Hpre]. apply prefix_app_r. reflexivity.
    + simpl. rewrite Htool0. reflexivity.
    + simpl. destruct Hcases as [[Hm Hl]|(s & _ & Hl)]; [congruence | exact Hl].
Qed.

(** X18: a session: after "Start sampling" and any series of clicks that return,
    the picker shows one marker for each click, in order; there are at most
    as many samples as clicks and the label counts them.  "Finish sampling"
    then clears the markers, takes the picker off the canvas, keeps the
    samples and reports their number. *)
Theorem sampling_session (G : Desktop) (d0 d : Dialog) (points : list PointXY) :
  clicks G (_start_sampling d0) points = Ok d →
  pixelTool d = Some points ∧
  (length (muestras d) ≤ length points)%nat ∧
  labelEstado d = ("Samples collected: " ++ pretty (length (muestras d)))%string ∧
  btnIniciarMuestras d = false ∧ btnTerminarMuestras d = true ∧ canvasTool d = true ∧
  muestras (_stop_sampling d) = muestras d ∧
  pixelTool (_stop_sampling d) = Some [] ∧
  canvasTool (_stop_sampling d) = false ∧
  btnTerminarMuestras (_stop_sampling d) = false ∧
  labelEstado (_stop_sampling d)
  = ("SAMPLING COMPLETED. Total samples: " ++ pretty (length (muestras d)))%string.
Proof.
  intros H.
  apply (clicks_invariant G points (_start_sampling d0) d []) in H; [|reflexivity..].
  destruct H as (Htool & Hlen & _ & Hlabel & Hi & Ht & Hc). simpl in *.
  repeat split; try assumption.
  all: unfold _stop_sampling, resetRubberBand; rewrite Htool; reflexivity.
Qed.

Lemma sampling_session_witness :
  let points := [(500002.5, 6000003.5); (499990.0, 6000003.5)]%float in
  let d := set_tool (Some points) true
             (set_status "Samples collected: 1" 0
                (set_muestras [(500002.5%float, 6000003.5%float, [12; 11; 10])]
                   (_start_sampling (new_dialog demo_project)))) in
  pixelTool d = Some points ∧
  (length (muestras d) ≤ length points)%nat ∧
  labelEstado d = ("Samples collected: " ++ pretty (length (muestras d)))%string ∧
  btnIniciarMuestras d = false ∧ btnTerminarMuestras d = true ∧ canvasTool d = true ∧
  muestras (_stop_sampling d) = muestras d ∧
  pixelTool (_stop_sampling d) = Some [] ∧
  canvasTool (_stop_sampling d) = false ∧
  btnTerminarMuestras (_stop_sampling d) = false ∧
  labelEstado (_stop_sampling d)
  = ("SAMPLING COMPLETED. Total samples: " ++ pretty (length (muestras d)))%string.
Proof.
  apply (sampling_session demo_desktop (new_dialog demo_project)).
  vm_compute. reflexivity.
Defined.

(** ** Running the segmentation from the dialog *)

Lemma add_features_count (B : Backend) ext px_x px_y (contornos : list Contour) feats :
  add_features B ext px_x px_y [] (enumerate 1 contornos) = Ok feats →
  length feats = length (filter (λ cnt : Contour, (3 ≤ length cnt)%nat) contornos).
Proof.
  intros H. apply add_features_Ok in H as (fs & Hfs & Hall). simpl in Hfs. subst fs.
  rewrite <- (kept_enumerate_snd contornos 1), length_map.
  symmetry. eapply Forall2_length, Hall.
Qed.

(** X19: [segmentar_con_otsu] never fails.  Either it shows one message box and
    leaves the project, the progress bar, the label and the timers as they
    were, or the segmentation returned: its layer is then the last of the
    project under the name Olive_Canopies, the bar is at 100, the label
    reports as many canopies as contours of 3 or more vertices were traced,
    and the dialog is set to close after 2000 ms.  The samples are kept
    either way. *)
Theorem segmentar_con_otsu_outcomes (B : Backend) (σ : World) (project : list MapLayer)
    (d : Dialog) :
  let '(d', project') := segmentar_con_otsu B σ project d in
  muestras d' = muestras d ∧
  ((∃ m, shown d' = shown d ++ [m] ∧ project' = project ∧
         progressBar d' = progressBar d ∧ labelEstado d' = labelEstado d ∧
         timers d' = timers d) ∨
   (∃ name_aoi src gt layer_aoi name_ras layer_ras vlayer σ' mask_trees ext px_x px_y,
      currentData (comboAOI d) = Some (VectorMapLayer name_aoi src gt layer_aoi) ∧
      currentData (comboRaster d) = Some (RasterMapLayer name_ras layer_ras) ∧
      segment_olivos B σ layer_ras layer_aoi = Ok (vlayer, σ') ∧
      segment_mask B σ layer_ras layer_aoi = Ok (mask_trees, ext, px_x, px_y, σ') ∧
      project' = project ++ [VectorMapLayer "Olive_Canopies" (dataSourceUri vlayer)
                               PolygonGeometry vlayer] ∧
      shown d' = shown d ∧ progressBar d' = 100 ∧
      timers d' = timers d ++ [2000] ∧
      labelEstado d'
      = ("Done! "
         ++ pretty (length (filter (λ cnt : Contour, (3 ≤ length cnt)%nat)
                              (findContours B mask_trees)))
         ++ " canopies detected. Closing…")%string)).
Proof.
  unfold segmentar_con_otsu.
  destruct (currentData (comboAOI d)) as [[name_aoi src gt layer_aoi|n l|n]|] eqn:Haoi;
    try (split; [reflexivity | left; eexists; repeat split; reflexivity]).
  destruct (currentData (comboRaster d)) as [[n s g l|name_ras layer_ras|n]|] eqn:Hras;
    try (split; [reflexivity | left; eexists; repeat split; reflexivity]).
  destruct (segment_olivos B σ layer_ras layer_aoi) as [[vlayer σ']|exc] eqn:Hrun;
    [|split; [reflexivity | left; eexists; repeat split; reflexivity]].
  pose proof Hrun as Hrun'.
  apply segment_olivos_Ok in Hrun' as (mask_trees & ext & px_x & px_y & Hmask & Hfeats).
  apply add_features_count in Hfeats.
  unfold _on_layers_changed, _toggle_sample_button, _fill_combos, resetRubberBand.
  rewrite fill_loop_items. simpl.
  split; [destruct (pixelTool d); reflexivity|]. right.
  exists name_aoi, src, gt, layer_aoi, name_ras, layer_ras, vlayer, σ', mask_trees,
    ext, px_x, px_y.
  rewrite <- Hfeats.
  repeat split; try assumption; destruct (pixelTool d); reflexivity.
Qed.

(** X20: the samples play no part in the segmentation: with other samples in the
    dialog, [segmentar_con_otsu] leaves the same project and the same dialog
    but for the samples. *)
Theorem segmentar_con_otsu_ignores_samples (B : Backend) (σ : World)
    (project : list MapLayer) (d : Dialog) (samples : list Sample) :
  segmentar_con_otsu B σ project (set_muestras samples d)
  = (set_muestras samples (segmentar_con_otsu B σ project d).1,
     (segmentar_con_otsu B σ project d).2).
Proof.
  unfold segmentar_con_otsu. simpl.
  destruct (currentData (comboAOI d)) as [[name_aoi src gt layer_aoi|n l|n]|];
    try reflexivity.
  destruct (currentData (comboRaster d)) as [[n s g l|name_ras layer_ras|n]|];
    try reflexivity.
  destruct (segment_olivos B σ layer_ras layer_aoi) as [[vlayer σ']|exc]; [|reflexivity].
  unfold _on_layers_changed, _toggle_sample_button, _fill_combos, resetRubberBand.
  rewrite fill_loop_items. simpl. destruct (pixelTool d); reflexivity.
Qed.

(** On the demo project, with the shapefile AOI and the raster selected. *)
Lemma segmentar_con_otsu_demo :
  let '(d', project') :=
    segmentar_con_otsu demo_backend (parcela_world "/tmp/tmpq1x8") demo_project
      (new_dialog demo_project) in
  labelEstado d' = "Done! 1 canopies detected. Closing…"%string ∧
  length project' = 4%nat ∧ progressBar d' = 100 ∧ timers d' = [2000].
Proof. vm_compute. repeat split. Qed.

(** X21: a polygon shapefile that the dialog offers, taken in the raster's CRS, is
    read where it is: the run writes no temporary copy and leaves the file
    system as it found it. *)
Theorem offered_aoi_read_in_place (B : Backend) (σ σ' : World) (ras : RasterLayer)
    (aoi : VectorLayer) (name : string) (gt : GeometryType) (vlayer : VectorLayer) :
  offered_aoi (VectorMapLayer name (dataSourceUri aoi) gt aoi) = true →
  v_crs aoi = r_crs ras →
  segment_olivos B σ ras aoi = Ok (vlayer, σ') →
  σ' = σ.
Proof.
  intros Hoff Hcrs Hrun. simpl in Hoff. apply andb_prop in Hoff as [_ Hshp].
  apply segment_olivos_Ok in Hrun as (mask_trees & ext & px_x & px_y & Hmask & _).
  apply segment_mask_Ok in Hmask as (mask_arr & w & h & img & Hras & _ & _).
  apply rasterize_aoi_Ok in Hras as (aoi_proj & aoi_file & σ1 & Hproj & Hprep & Hras).
  apply rasterize_prepared_world in Hras as ->.
  unfold _reproject_aoi_to_raster in Hproj.
  destruct (decide (v_crs aoi = r_crs ras)); [|contradiction].
  injection Hproj as <-. unfold _prepare_aoi_file in Hprep. rewrite Hshp in Hprep.
  injection Hprep as _ <-. reflexivity.
Qed.

Lemma offered_aoi_read_in_place_witness :
  parcela_world "/tmp/tmpq1x8" = parcela_world "/tmp/tmpq1x8".
Proof.
  eapply (offered_aoi_read_in_place demo_backend (parcela_world "/tmp/tmpq1x8") _ demo_ras
            parcela_aoi "parcela" PolygonGeometry).
  - reflexivity.
  - reflexivity.
  - vm_compute. reflexivity.
Defined.

Lemma count_offered (project : list MapLayer) :
  (0 <? length (combo_items offered_raster project))%nat = true
  ↔ Exists (λ lyr, offered_raster lyr = true) project.
Proof.
  unfold combo_items. rewrite length_map, Nat.ltb_lt.
  induction project as [|lyr rest IH]; simpl.
  - split; [lia | intros H; inversion H].
  - destruct (offered_raster lyr) eqn:Hoff; simpl.
    + split; [intros _; left; exact Hoff | lia].
    + rewrite IH. split; [intros H; right; exact H|].
      intros H. inversion H as [? ? Hhd|? ? Htl]; subst; [congruence | exact Htl].
Qed.

(** X22: "Start sampling" is enabled by a new dialog, by a change of the layers
    and when the dialog is shown exactly when the project then holds a raster
    whose source ends in ".tif" or ".tiff"; a new dialog has "Finish
    sampling" disabled and no sample. *)
Theorem start_button_follows_rasters (project : list MapLayer) (d : Dialog) :
  (btnIniciarMuestras (new_dialog project) = true
   ↔ Exists (λ lyr, offered_raster lyr = true) project) ∧
  (btnIniciarMuestras (_on_layers_changed project d) = true
   ↔ Exists (λ lyr, offered_raster lyr = true) project) ∧
  (btnIniciarMuestras (showEvent project d) = true
   ↔ Exists (λ lyr, offered_raster lyr = true) project) ∧
  btnTerminarMuestras (new_dialog project) = false ∧
  muestras (new_dialog project) = [].
Proof.
  unfold new_dialog, showEvent, _on_layers_changed, _toggle_sample_button, _fill_combos.
  rewrite !fill_loop_items. simpl. unfold count. simpl.
  repeat split; try apply count_offered; reflexivity.
Qed.
